(** * arxiv_batch_export: query building, record extraction and rendering

    A shallow embedding of [arxiv_batch_export.py].  A Python [str] is the
    list of its characters, each a Unicode code point in [N]; a literal is
    written [lit "..."].  The character classes are those of Python 3.11
    with Unicode 14: the white space of [str.isspace], the decimal digits
    and the word characters of [re].  [unquote] and [parse_qs] are
    modelled with their decoding of [%XX] escapes and of UTF-8.  The XML
    parser, [urlparse] and [str.upper] are outside the program: a document
    is the tree the parser built, and the query of a URL and the capitals
    of a text are parameters.  An exception is a constructor of [exn]; a
    function that may raise returns a [result]. *)

From Stdlib Require Import Ascii String DecimalString DecimalNat NArith.
From stdpp Require Import gmap strings list.

(** ** Characters *)

(** A character of a literal. *)
Definition ch (a : ascii) : N := N_of_ascii a.

(** A literal of ASCII characters. *)
Definition lit (s : string) : list N := List.map N_of_ascii (list_ascii_of_string s).

Arguments lit : simpl never.
Arguments ch : simpl never.

Definition in_range (lo hi c : N) : bool := ((lo <=? c) && (c <=? hi))%N.

(** Equality of two texts. *)
Fixpoint str_eqb (a b : list N) : bool :=
  match a, b with
  | [], [] => true
  | x :: a', y :: b' => N.eqb x y && str_eqb a' b'
  | _, _ => false
  end.

(** The characters of [str.isspace], Unicode 14. *)
Definition space_chars : list N :=
  [9; 10; 11; 12; 13; 28; 29; 30; 31; 32; 133; 160; 5760; 8192; 8193; 8194;
   8195; 8196; 8197; 8198; 8199; 8200; 8201; 8202; 8232; 8233; 8239; 8287;
   12288]%N.

(** The digit zero of each run of ten decimal digits (category Nd),
    Unicode 14. *)
Definition decimal_zeros : list N :=
  [48; 1632; 1776; 1984; 2406; 2534; 2662; 2790; 2918; 3046; 3174; 3302;
   3430; 3558; 3664; 3792; 3872; 4160; 4240; 6112; 6160; 6470; 6608; 6784;
   6800; 6992; 7088; 7232; 7248; 42528; 43216; 43264; 43472; 43504; 43600;
   44016; 65296; 66720; 68912; 69734; 69872; 69942; 70096; 70384; 70736;
   70864; 71248; 71360; 71472; 71904; 72016; 72784; 73040; 73120; 92768;
   92864; 93008; 120782; 120792; 120802; 120812; 120822; 123200; 123632;
   125264; 130032]%N.

(** The ranges of the word characters of [re], those of [str.isalnum] and
    the underscore, Unicode 14: first and last character of each range. *)
Definition word_ranges : list (N * N) :=
  [(48, 57); (65, 90); (95, 95); (97, 122); (170, 170); (178, 179);
   (181, 181); (185, 186); (188, 190); (192, 214); (216, 246); (248, 705);
   (710, 721); (736, 740); (748, 748); (750, 750); (880, 884); (886, 887);
   (890, 893); (895, 895); (902, 902); (904, 906); (908, 908); (910, 929);
   (931, 1013); (1015, 1153); (1162, 1327); (1329, 1366); (1369, 1369);
   (1376, 1416); (1488, 1514); (1519, 1522); (1568, 1610); (1632, 1641);
   (1646, 1647); (1649, 1747); (1749, 1749); (1765, 1766); (1774, 1788);
   (1791, 1791); (1808, 1808); (1810, 1839); (1869, 1957); (1969, 1969);
   (1984, 2026); (2036, 2037); (2042, 2042); (2048, 2069); (2074, 2074);
   (2084, 2084); (2088, 2088); (2112, 2136); (2144, 2154); (2160, 2183);
   (2185, 2190); (2208, 2249); (2308, 2361); (2365, 2365); (2384, 2384);
   (2392, 2401); (2406, 2415); (2417, 2432); (2437, 2444); (2447, 2448);
   (2451, 2472); (2474, 2480); (2482, 2482); (2486, 2489); (2493, 2493);
   (2510, 2510); (2524, 2525); (2527, 2529); (2534, 2545); (2548, 2553);
   (2556, 2556); (2565, 2570); (2575, 2576); (2579, 2600); (2602, 2608);
   (2610, 2611); (2613, 2614); (2616, 2617); (2649, 2652); (2654, 2654);
   (2662, 2671); (2674, 2676); (2693, 2701); (2703, 2705); (2707, 2728);
   (2730, 2736); (2738, 2739); (2741, 2745); (2749, 2749); (2768, 2768);
   (2784, 2785); (2790, 2799); (2809, 2809); (2821, 2828); (2831, 2832);
   (2835, 2856); (2858, 2864); (2866, 2867); (2869, 2873); (2877, 2877);
   (2908, 2909); (2911, 2913); (2918, 2927); (2929, 2935); (2947, 2947);
   (2949, 2954); (2958, 2960); (2962, 2965); (2969, 2970); (2972, 2972);
   (2974, 2975); (2979, 2980); (2984, 2986); (2990, 3001); (3024, 3024);
   (3046, 3058); (3077, 3084); (3086, 3088); (3090, 3112); (3114, 3129);
   (3133, 3133); (3160, 3162); (3165, 3165); (3168, 3169); (3174, 3183);
   (3192, 3198); (3200, 3200); (3205, 3212); (3214, 3216); (3218, 3240);
   (3242, 3251); (3253, 3257); (3261, 3261); (3293, 3294); (3296, 3297);
   (3302, 3311); (3313, 3314); (3332, 3340); (3342, 3344); (3346, 3386);
   (3389, 3389); (3406, 3406); (3412, 3414); (3416, 3425); (3430, 3448);
   (3450, 3455); (3461, 3478); (3482, 3505); (3507, 3515); (3517, 3517);
   (3520, 3526); (3558, 3567); (3585, 3632); (3634, 3635); (3648, 3654);
   (3664, 3673); (3713, 3714); (3716, 3716); (3718, 3722); (3724, 3747);
   (3749, 3749); (3751, 3760); (3762, 3763); (3773, 3773); (3776, 3780);
   (3782, 3782); (3792, 3801); (3804, 3807); (3840, 3840); (3872, 3891);
   (3904, 3911); (3913, 3948); (3976, 3980); (4096, 4138); (4159, 4169);
   (4176, 4181); (4186, 4189); (4193, 4193); (4197, 4198); (4206, 4208);
   (4213, 4225); (4238, 4238); (4240, 4249); (4256, 4293); (4295, 4295);
   (4301, 4301); (4304, 4346); (4348, 4680); (4682, 4685); (4688, 4694);
   (4696, 4696); (4698, 4701); (4704, 4744); (4746, 4749); (4752, 4784);
   (4786, 4789); (4792, 4798); (4800, 4800); (4802, 4805); (4808, 4822);
   (4824, 4880); (4882, 4885); (4888, 4954); (4969, 4988); (4992, 5007);
   (5024, 5109); (5112, 5117); (5121, 5740); (5743, 5759); (5761, 5786);
   (5792, 5866); (5870, 5880); (5888, 5905); (5919, 5937); (5952, 5969);
   (5984, 5996); (5998, 6000); (6016, 6067); (6103, 6103); (6108, 6108);
   (6112, 6121); (6128, 6137); (6160, 6169); (6176, 6264); (6272, 6276);
   (6279, 6312); (6314, 6314); (6320, 6389); (6400, 6430); (6470, 6509);
   (6512, 6516); (6528, 6571); (6576, 6601); (6608, 6618); (6656, 6678);
   (6688, 6740); (6784, 6793); (6800, 6809); (6823, 6823); (6917, 6963);
   (6981, 6988); (6992, 7001); (7043, 7072); (7086, 7141); (7168, 7203);
   (7232, 7241); (7245, 7293); (7296, 7304); (7312, 7354); (7357, 7359);
   (7401, 7404); (7406, 7411); (7413, 7414); (7418, 7418); (7424, 7615);
   (7680, 7957); (7960, 7965); (7968, 8005); (8008, 8013); (8016, 8023);
   (8025, 8025); (8027, 8027); (8029, 8029); (8031, 8061); (8064, 8116);
   (8118, 8124); (8126, 8126); (8130, 8132); (8134, 8140); (8144, 8147);
   (8150, 8155); (8160, 8172); (8178, 8180); (8182, 8188); (8304, 8305);
   (8308, 8313); (8319, 8329); (8336, 8348); (8450, 8450); (8455, 8455);
   (8458, 8467); (8469, 8469); (8473, 8477); (8484, 8484); (8486, 8486);
   (8488, 8488); (8490, 8493); (8495, 8505); (8508, 8511); (8517, 8521);
   (8526, 8526); (8528, 8585); (9312, 9371); (9450, 9471); (10102, 10131);
   (11264, 11492); (11499, 11502); (11506, 11507); (11517, 11517);
   (11520, 11557); (11559, 11559); (11565, 11565); (11568, 11623);
   (11631, 11631); (11648, 11670); (11680, 11686); (11688, 11694);
   (11696, 11702); (11704, 11710); (11712, 11718); (11720, 11726);
   (11728, 11734); (11736, 11742); (11823, 11823); (12293, 12295);
   (12321, 12329); (12337, 12341); (12344, 12348); (12353, 12438);
   (12445, 12447); (12449, 12538); (12540, 12543); (12549, 12591);
   (12593, 12686); (12690, 12693); (12704, 12735); (12784, 12799);
   (12832, 12841); (12872, 12879); (12881, 12895); (12928, 12937);
   (12977, 12991); (13312, 19903); (19968, 42124); (42192, 42237);
   (42240, 42508); (42512, 42539); (42560, 42606); (42623, 42653);
   (42656, 42735); (42775, 42783); (42786, 42888); (42891, 42954);
   (42960, 42961); (42963, 42963); (42965, 42969); (42994, 43009);
   (43011, 43013); (43015, 43018); (43020, 43042); (43056, 43061);
   (43072, 43123); (43138, 43187); (43216, 43225); (43250, 43255);
   (43259, 43259); (43261, 43262); (43264, 43301); (43312, 43334);
   (43360, 43388); (43396, 43442); (43471, 43481); (43488, 43492);
   (43494, 43518); (43520, 43560); (43584, 43586); (43588, 43595);
   (43600, 43609); (43616, 43638); (43642, 43642); (43646, 43695);
   (43697, 43697); (43701, 43702); (43705, 43709); (43712, 43712);
   (43714, 43714); (43739, 43741); (43744, 43754); (43762, 43764);
   (43777, 43782); (43785, 43790); (43793, 43798); (43808, 43814);
   (43816, 43822); (43824, 43866); (43868, 43881); (43888, 44002);
   (44016, 44025); (44032, 55203); (55216, 55238); (55243, 55291);
   (63744, 64109); (64112, 64217); (64256, 64262); (64275, 64279);
   (64285, 64285); (64287, 64296); (64298, 64310); (64312, 64316);
   (64318, 64318); (64320, 64321); (64323, 64324); (64326, 64433);
   (64467, 64829); (64848, 64911); (64914, 64967); (65008, 65019);
   (65136, 65140); (65142, 65276); (65296, 65305); (65313, 65338);
   (65345, 65370); (65382, 65470); (65474, 65479); (65482, 65487);
   (65490, 65495); (65498, 65500); (65536, 65547); (65549, 65574);
   (65576, 65594); (65596, 65597); (65599, 65613); (65616, 65629);
   (65664, 65786); (65799, 65843); (65856, 65912); (65930, 65931);
   (66176, 66204); (66208, 66256); (66273, 66299); (66304, 66339);
   (66349, 66378); (66384, 66421); (66432, 66461); (66464, 66499);
   (66504, 66511); (66513, 66517); (66560, 66717); (66720, 66729);
   (66736, 66771); (66776, 66811); (66816, 66855); (66864, 66915);
   (66928, 66938); (66940, 66954); (66956, 66962); (66964, 66965);
   (66967, 66977); (66979, 66993); (66995, 67001); (67003, 67004);
   (67072, 67382); (67392, 67413); (67424, 67431); (67456, 67461);
   (67463, 67504); (67506, 67514); (67584, 67589); (67592, 67592);
   (67594, 67637); (67639, 67640); (67644, 67644); (67647, 67669);
   (67672, 67702); (67705, 67742); (67751, 67759); (67808, 67826);
   (67828, 67829); (67835, 67867); (67872, 67897); (67968, 68023);
   (68028, 68047); (68050, 68096); (68112, 68115); (68117, 68119);
   (68121, 68149); (68160, 68168); (68192, 68222); (68224, 68255);
   (68288, 68295); (68297, 68324); (68331, 68335); (68352, 68405);
   (68416, 68437); (68440, 68466); (68472, 68497); (68521, 68527);
   (68608, 68680); (68736, 68786); (68800, 68850); (68858, 68899);
   (68912, 68921); (69216, 69246); (69248, 69289); (69296, 69297);
   (69376, 69415); (69424, 69445); (69457, 69460); (69488, 69505);
   (69552, 69579); (69600, 69622); (69635, 69687); (69714, 69743);
   (69745, 69746); (69749, 69749); (69763, 69807); (69840, 69864);
   (69872, 69881); (69891, 69926); (69942, 69951); (69956, 69956);
   (69959, 69959); (69968, 70002); (70006, 70006); (70019, 70066);
   (70081, 70084); (70096, 70106); (70108, 70108); (70113, 70132);
   (70144, 70161); (70163, 70187); (70272, 70278); (70280, 70280);
   (70282, 70285); (70287, 70301); (70303, 70312); (70320, 70366);
   (70384, 70393); (70405, 70412); (70415, 70416); (70419, 70440);
   (70442, 70448); (70450, 70451); (70453, 70457); (70461, 70461);
   (70480, 70480); (70493, 70497); (70656, 70708); (70727, 70730);
   (70736, 70745); (70751, 70753); (70784, 70831); (70852, 70853);
   (70855, 70855); (70864, 70873); (71040, 71086); (71128, 71131);
   (71168, 71215); (71236, 71236); (71248, 71257); (71296, 71338);
   (71352, 71352); (71360, 71369); (71424, 71450); (71472, 71483);
   (71488, 71494); (71680, 71723); (71840, 71922); (71935, 71942);
   (71945, 71945); (71948, 71955); (71957, 71958); (71960, 71983);
   (71999, 71999); (72001, 72001); (72016, 72025); (72096, 72103);
   (72106, 72144); (72161, 72161); (72163, 72163); (72192, 72192);
   (72203, 72242); (72250, 72250); (72272, 72272); (72284, 72329);
   (72349, 72349); (72368, 72440); (72704, 72712); (72714, 72750);
   (72768, 72768); (72784, 72812); (72818, 72847); (72960, 72966);
   (72968, 72969); (72971, 73008); (73030, 73030); (73040, 73049);
   (73056, 73061); (73063, 73064); (73066, 73097); (73112, 73112);
   (73120, 73129); (73440, 73458); (73648, 73648); (73664, 73684);
   (73728, 74649); (74752, 74862); (74880, 75075); (77712, 77808);
   (77824, 78894); (82944, 83526); (92160, 92728); (92736, 92766);
   (92768, 92777); (92784, 92862); (92864, 92873); (92880, 92909);
   (92928, 92975); (92992, 92995); (93008, 93017); (93019, 93025);
   (93027, 93047); (93053, 93071); (93760, 93846); (93952, 94026);
   (94032, 94032); (94099, 94111); (94176, 94177); (94179, 94179);
   (94208, 100343); (100352, 101589); (101632, 101640); (110576, 110579);
   (110581, 110587); (110589, 110590); (110592, 110882); (110928, 110930);
   (110948, 110951); (110960, 111355); (113664, 113770); (113776, 113788);
   (113792, 113800); (113808, 113817); (119520, 119539); (119648, 119672);
   (119808, 119892); (119894, 119964); (119966, 119967); (119970, 119970);
   (119973, 119974); (119977, 119980); (119982, 119993); (119995, 119995);
   (119997, 120003); (120005, 120069); (120071, 120074); (120077, 120084);
   (120086, 120092); (120094, 120121); (120123, 120126); (120128, 120132);
   (120134, 120134); (120138, 120144); (120146, 120485); (120488, 120512);
   (120514, 120538); (120540, 120570); (120572, 120596); (120598, 120628);
   (120630, 120654); (120656, 120686); (120688, 120712); (120714, 120744);
   (120746, 120770); (120772, 120779); (120782, 120831); (122624, 122654);
   (123136, 123180); (123191, 123197); (123200, 123209); (123214, 123214);
   (123536, 123565); (123584, 123627); (123632, 123641); (124896, 124902);
   (124904, 124907); (124909, 124910); (124912, 124926); (124928, 125124);
   (125127, 125135); (125184, 125251); (125259, 125259); (125264, 125273);
   (126065, 126123); (126125, 126127); (126129, 126132); (126209, 126253);
   (126255, 126269); (126464, 126467); (126469, 126495); (126497, 126498);
   (126500, 126500); (126503, 126503); (126505, 126514); (126516, 126519);
   (126521, 126521); (126523, 126523); (126530, 126530); (126535, 126535);
   (126537, 126537); (126539, 126539); (126541, 126543); (126545, 126546);
   (126548, 126548); (126551, 126551); (126553, 126553); (126555, 126555);
   (126557, 126557); (126559, 126559); (126561, 126562); (126564, 126564);
   (126567, 126570); (126572, 126578); (126580, 126583); (126585, 126588);
   (126590, 126590); (126592, 126601); (126603, 126619); (126625, 126627);
   (126629, 126633); (126635, 126651); (127232, 127244); (130032, 130041);
   (131072, 173791); (173824, 177976); (177984, 178205); (178208, 183969);
   (183984, 191456); (194560, 195101); (196608, 201546)]%N.

(** ** Python's [str] methods *)

Module Str.

(** [str.isspace] on one character. *)
Definition isspace (c : N) : bool := existsb (N.eqb c) space_chars.

(** The value of a decimal digit, [None] for another character. *)
Definition decimal (c : N) : option N :=
  match List.find (fun z => in_range z (z + 9) c) decimal_zeros with
  | Some z => Some (c - z)%N
  | None => None
  end.

(** The class [\d] of [re]. *)
Definition isdigit (c : N) : bool :=
  match decimal c with Some _ => true | None => false end.

(** The class [\w] of [re]. *)
Definition isword (c : N) : bool :=
  existsb (fun '(lo, hi) => in_range lo hi c) word_ranges.

(** The class [[a-zA-Z0-9]]. *)
Definition isalnum_ascii (c : N) : bool :=
  in_range 48 57 c || in_range 65 90 c || in_range 97 122 c.

(** [str.lower] on the letters [A] to [Z]; the texts it is applied to hold
    nothing but characters of [[a-zA-Z0-9]], and only those letters have
    a lower-case form there. *)
Definition lower_char (c : N) : N := if in_range 65 90 c then (c + 32)%N else c.
Definition lower (s : list N) : list N := List.map lower_char s.

Definition all (p : N -> bool) (s : list N) : bool := forallb p s.

(** [s.replace(a, b)] for one-character [a] and [b]. *)
Definition replace_char (a b : N) (s : list N) : list N :=
  List.map (fun c => if N.eqb c a then b else c) s.

Fixpoint lstrip (s : list N) : list N :=
  match s with
  | [] => []
  | c :: r => if isspace c then lstrip r else s
  end.

Fixpoint rstrip (s : list N) : list N :=
  match s with
  | [] => []
  | c :: r =>
      match rstrip r with
      | [] => if isspace c then [] else [c]
      | r' => c :: r'
      end
  end.

Definition strip (s : list N) : list N := rstrip (lstrip s).

(** The maximal runs of characters that are not separators, in order. *)
Fixpoint fields (sep : N -> bool) (s : list N) : list (list N) :=
  match s with
  | [] => []
  | c :: r =>
      if sep c then fields sep r
      else match r with
           | [] => [[c]]
           | d :: _ =>
               if sep d then [c] :: fields sep r
               else match fields sep r with
                    | w :: ws => (c :: w) :: ws
                    | [] => [[c]]
                    end
           end
  end.

(** [s.split()]: the maximal runs of non-whitespace characters. *)
Definition split (s : list N) : list (list N) := fields isspace s.

(** [s.replace(a, b)] for a one-character [a] and any [b]. *)
Fixpoint replace (a : N) (b : list N) (s : list N) : list N :=
  match s with
  | [] => []
  | c :: r => if N.eqb c a then b ++ replace a b r else c :: replace a b r
  end.

(** [str(n)] for a natural number. *)
Definition of_nat (n : nat) : list N := lit (NilZero.string_of_uint (Nat.to_uint n)).

(** A number printed on at least [w] digits, padded with zeros. *)
Definition zfill (w : nat) (n : nat) : list N :=
  let d := of_nat n in
  List.repeat 48%N (w - length d) ++ d.

(** [sep.join(parts)]. *)
Fixpoint join (sep : list N) (parts : list (list N)) : list N :=
  match parts with
  | [] => []
  | [x] => x
  | x :: xs => x ++ sep ++ join sep xs
  end.

Fixpoint startswith (p s : list N) : bool :=
  match p, s with
  | [], _ => true
  | a :: p', b :: s' => N.eqb a b && startswith p' s'
  | _ :: _, [] => false
  end.

(** [p in s]. *)
Fixpoint contains (p s : list N) : bool :=
  startswith p s ||
  match s with
  | [] => false
  | _ :: r => contains p r
  end.

(** Python's truth value of a string. *)
Definition nonempty (s : list N) : bool :=
  match s with [] => false | _ => true end.

End Str.

(** ** Summary clean-up, as in [safe_get_element] *)

(** The character class [[\\{}$]]. *)
Definition latex_special (c : N) : bool :=
  N.eqb c 92 || N.eqb c 123 || N.eqb c 125 || N.eqb c 36.

(** [re.sub(r'[\\{}$]', '', text)]. *)
Definition remove_latex (text : list N) : list N :=
  List.filter (fun c => negb (latex_special c)) text.

(** [' '.join(clean_text.split())] after the substitution. *)
Definition normalize_summary (text : list N) : list N :=
  Str.join (lit " ") (Str.split (remove_latex text)).

(** ** Exceptions and results *)

Inductive exn : Type :=
| AttributeError
| TypeError
| ValueError (msg : list N)
| Exception_ (msg : list N).

(** The two error kinds the specification names. *)
Abbreviation MalformedQuery := ValueError (only parsing).
Abbreviation UpstreamError := Exception_ (only parsing).

Inductive result (A : Type) : Type :=
| Ok (a : A)
| Raise (e : exn).
Arguments Ok {A} a.
Arguments Raise {A} e.

#[global] Instance result_bind : MBind result := fun A B k r =>
  match r with
  | Ok a => k a
  | Raise e => Raise e
  end.

(** [try: body except AttributeError: return default]. *)
Definition except_AttributeError {A} (body : result A) (default : A) : result A :=
  match body with
  | Raise AttributeError => Ok default
  | r => r
  end.

(** A list comprehension or loop whose body may raise. *)
Fixpoint traverse {A B} (f : A -> result B) (l : list A) : result (list B) :=
  match l with
  | [] => Ok []
  | a :: l' => b ← f a; bs ← traverse f l'; Ok (b :: bs)
  end.

(** ** The parsed document

    An [xml.etree.ElementTree] element: its qualified tag, its attributes,
    its text ([None] for an element without character data) and its
    children in document order. *)

Inductive Element : Type :=
| Elem (tag : list N) (attrib : list (list N * list N))
       (text : option (list N)) (children : list Element).

Definition tag (e : Element) : list N := let 'Elem t _ _ _ := e in t.
Definition attrib (e : Element) : list (list N * list N) := let 'Elem _ a _ _ := e in a.
Definition text (e : Element) : option (list N) := let 'Elem _ _ x _ := e in x.
Definition children (e : Element) : list Element := let 'Elem _ _ _ c := e in c.

(** [d.get(key)] on a dictionary given by its items. *)
Fixpoint get_attrib (key : list N) (a : list (list N * list N)) : option (list N) :=
  match a with
  | [] => None
  | (k, v) :: a' => if str_eqb k key then Some v else get_attrib key a'
  end.

Definition NS : list (list N * list N) :=
  [(lit "atom", lit "http://www.w3.org/2005/Atom");
   (lit "arxiv", lit "http://arxiv.org/schemas/atom");
   (lit "opensearch", lit "http://a9.com/-/spec/opensearch/1.1/")].

(** [s.split(sep)] for a one-character separator: every piece, empty ones too. *)
Fixpoint split_on (sep : N) (s : list N) : list (list N) :=
  match s with
  | [] => [[]]
  | c :: r =>
      if N.eqb c sep then [] :: split_on sep r
      else match split_on sep r with
           | w :: ws => (c :: w) :: ws
           | [] => [[c]]
           end
  end.

(** A path step [prefix:local] becomes [{uri}local]; every path of the
    program uses a prefix declared in [NS]. *)
Definition qualify (step : list N) : list N :=
  match split_on (ch ":") step with
  | [pre; local] =>
      match get_attrib pre NS with
      | Some uri => lit "{" ++ uri ++ lit "}" ++ local
      | None => step
      end
  | _ => step
  end.

(** One step of a path: the children with that tag, in document order. *)
Definition select (t : list N) (from : list Element) : list Element :=
  flat_map (fun e => List.filter (fun c => str_eqb (tag c) t) (children e)) from.

(** [element.findall(xpath, NS)]. *)
Definition findall (element : Element) (xpath : list N) : list Element :=
  fold_left (fun from step => select (qualify step) from)
            (split_on (ch "/") xpath) [element].

(** [element.find(xpath, NS)]: the first match or [None]. *)
Definition find (element : Element) (xpath : list N) : option Element :=
  head (findall element xpath).

(** ** Field lookup *)

(** [.text] on the result of [find]: [None] has no attributes. *)
Definition dot_text (found : option Element) : result (option (list N)) :=
  match found with
  | Some el => Ok (text el)
  | None => Raise AttributeError
  end.

(** [.strip()] on a text that may be [None]. *)
Definition dot_strip (t : option (list N)) : result (list N) :=
  match t with
  | Some s => Ok (Str.strip s)
  | None => Raise AttributeError
  end.

(** [re.sub(r'[\\{}$]', '', text)]: a [TypeError] on [None]. *)
Definition re_sub_latex (t : option (list N)) : result (list N) :=
  match t with
  | Some s => Ok (remove_latex s)
  | None => Raise TypeError
  end.

Definition safe_get_element (element : Element) (xpath : list N)
    (default : list N) : result (list N) :=
  except_AttributeError
    (if Str.contains (lit "atom:summary") xpath then
       t ← dot_text (find element xpath);
       clean_text ← re_sub_latex t;
       Ok (match t with
           | Some _ => Str.join (lit " ") (Str.split clean_text)
           | None => default
           end)
     else
       t ← dot_text (find element xpath);
       dot_strip t)
    default.

(** ** The identifier pattern [(\d{4}\.\d{5}v\d+|\d{4}\.\d{5})] *)

(** Exactly [n] digits at the head of [s]: the digits and what follows. *)
Fixpoint take_digits (n : nat) (s : list N) : option (list N * list N) :=
  match n with
  | O => Some ([], s)
  | S n' =>
      match s with
      | c :: r =>
          if Str.isdigit c then
            match take_digits n' r with
            | Some (ds, rest) => Some (c :: ds, rest)
            | None => None
            end
          else None
      | [] => None
      end
  end.

(** The longest run of digits at the head of [s] (a greedy [\d*]). *)
Fixpoint span_digits (s : list N) : list N * list N :=
  match s with
  | c :: r =>
      if Str.isdigit c then let '(ds, rest) := span_digits r in (c :: ds, rest)
      else ([], s)
  | [] => ([], [])
  end.

(** [\d{4}\.\d{5}] at the head of [s]. *)
Definition match_base (s : list N) : option (list N * list N) :=
  match take_digits 4 s with
  | Some (a, c :: r) =>
      if N.eqb c (ch ".") then
        match take_digits 5 r with
        | Some (b, rest) => Some (a ++ lit "." ++ b, rest)
        | None => None
        end
      else None
  | _ => None
  end.

(** The whole pattern at the head of [s]: the alternative with a version
    is tried first. *)
Definition match_arxiv_id (s : list N) : option (list N) :=
  match match_base s with
  | Some (base, c :: r) =>
      if N.eqb c (ch "v") then
        match span_digits r with
        | (d :: ds, _) => Some (base ++ lit "v" ++ d :: ds)
        | ([], _) => Some base
        end
      else Some base
  | Some (base, []) => Some base
  | None => None
  end.

(** [re.search(pattern, s)] and [.group(0)]: the match at the leftmost
    position that has one. *)
Fixpoint search_arxiv_id (s : list N) : option (list N) :=
  match match_arxiv_id s with
  | Some m => Some m
  | None =>
      match s with
      | _ :: r => search_arxiv_id r
      | [] => None
      end
  end.

(** ** [datetime.strptime(s, '%Y-%m-%dT%H:%M:%SZ')] and [strftime] *)

Record datetime : Type := mkdatetime {
  dt_year : nat; dt_month : nat; dt_day : nat;
  dt_hour : nat; dt_minute : nat; dt_second : nat
}.

(** The value [int] gives a decimal digit. *)
Definition digit_value (c : N) : nat :=
  match Str.decimal c with Some v => N.to_nat v | None => 0 end.

(** The candidates of a directive are listed in the order in which the
    regular expression of [_strptime] tries its alternatives. *)
Definition candidates := list (nat * list N).

(** Two characters of the classes [p1] and [p2], read as a number. *)
Definition two (p1 p2 : N -> bool) (s : list N) : candidates :=
  match s with
  | a :: b :: r =>
      if p1 a && p2 b then [(10 * digit_value a + digit_value b, r)] else []
  | _ => []
  end.

Definition one (p : N -> bool) (s : list N) : candidates :=
  match s with
  | a :: r => if p a then [(digit_value a, r)] else []
  | _ => []
  end.

Definition is_char (x : ascii) (c : N) : bool := N.eqb c (ch x).

(** A range of ASCII characters, as [[1-9]]. *)
Definition range (lo hi : ascii) (c : N) : bool := in_range (ch lo) (ch hi) c.

(** [%Y]: [\d\d\d\d]. *)
Definition directive_Y (s : list N) : candidates :=
  match s with
  | a :: b :: c :: d :: r =>
      if Str.isdigit a && Str.isdigit b && Str.isdigit c && Str.isdigit d then
        [(1000 * digit_value a + 100 * digit_value b
          + 10 * digit_value c + digit_value d, r)]
      else []
  | _ => []
  end.

(** [%m]: [1[0-2]|0[1-9]|[1-9]]. *)
Definition directive_m (s : list N) : candidates :=
  two (is_char "1") (range "0" "2") s ++
  two (is_char "0") (range "1" "9") s ++
  one (range "1" "9") s.

(** [%d]: [3[0-1]|[1-2]\d|0[1-9]|[1-9]| [1-9]]. *)
Definition directive_d (s : list N) : candidates :=
  two (is_char "3") (range "0" "1") s ++
  two (range "1" "2") Str.isdigit s ++
  two (is_char "0") (range "1" "9") s ++
  one (range "1" "9") s ++
  match s with
  | c :: r => if N.eqb c (ch " ") then one (range "1" "9") r else []
  | _ => []
  end.

(** [%H]: [2[0-3]|[0-1]\d|\d]. *)
Definition directive_H (s : list N) : candidates :=
  two (is_char "2") (range "0" "3") s ++
  two (range "0" "1") Str.isdigit s ++
  one Str.isdigit s.

(** [%M]: [[0-5]\d|\d]. *)
Definition directive_M (s : list N) : candidates :=
  two (range "0" "5") Str.isdigit s ++ one Str.isdigit s.

(** [%S]: [6[0-1]|[0-5]\d|\d]. *)
Definition directive_S (s : list N) : candidates :=
  two (is_char "6") (range "0" "1") s ++
  two (range "0" "5") Str.isdigit s ++
  one Str.isdigit s.

(** A literal character of the format; the expression is compiled with
    [re.IGNORECASE], under which [T] and [Z] match their lower-case
    letters too and [-] and [:] match themselves only. *)
Definition literal (x : ascii) (s : list N) : list (list N) :=
  match s with
  | c :: r => if N.eqb (Str.lower_char c) (Str.lower_char (ch x)) then [r] else []
  | [] => []
  end.

(** All the ways the expression matches at the head of [s], in the order
    of the backtracking search; [re.match] returns the first. *)
Definition format_matches (s : list N) : list (datetime * list N) :=
  '(year, s) ← directive_Y s; s ← literal "-" s;
  '(month, s) ← directive_m s; s ← literal "-" s;
  '(day, s) ← directive_d s; s ← literal "T" s;
  '(hour, s) ← directive_H s; s ← literal ":" s;
  '(minute, s) ← directive_M s; s ← literal ":" s;
  '(second, s) ← directive_S s; s ← literal "Z" s;
  [(mkdatetime year month day hour minute second, s)].

Definition is_leap (y : nat) : bool :=
  ((y mod 4 =? 0) && negb (y mod 100 =? 0) || (y mod 400 =? 0))%nat.

Definition days_in_month (y m : nat) : nat :=
  match m with
  | 2 => if is_leap y then 29 else 28
  | 4 | 6 | 9 | 11 => 30
  | _ => 31
  end.

(** What the [datetime] constructor accepts. *)
Definition valid_datetime (dt : datetime) : bool :=
  ((1 <=? dt_year dt) && (dt_year dt <=? 9999)
   && (1 <=? dt_month dt) && (dt_month dt <=? 12)
   && (1 <=? dt_day dt) && (dt_day dt <=? days_in_month (dt_year dt) (dt_month dt))
   && (dt_hour dt <=? 23) && (dt_minute dt <=? 59) && (dt_second dt <=? 59))%nat.

(** [None] stands for the [ValueError] of [strptime]: no match, unconverted
    data after the match, or a date the constructor rejects. *)
Definition strptime (s : list N) : option datetime :=
  match format_matches s with
  | (dt, []) :: _ => if valid_datetime dt then Some dt else None
  | _ => None
  end.

(** [%B] in the C locale. *)
Definition month_name (m : nat) : list N :=
  lit match m with
      | 1 => "January" | 2 => "February" | 3 => "March" | 4 => "April"
      | 5 => "May" | 6 => "June" | 7 => "July" | 8 => "August"
      | 9 => "September" | 10 => "October" | 11 => "November" | _ => "December"
      end.

(** [%Y], [%m] and [%d] of [strftime]: the C library prints the year
    without padding ([999] for the year 999), the month and the day on
    two digits. *)
Definition fmt_Y (dt : datetime) : list N := Str.of_nat (dt_year dt).
Definition fmt_m (dt : datetime) : list N := Str.zfill 2 (dt_month dt).
Definition fmt_d (dt : datetime) : list N := Str.zfill 2 (dt_day dt).

(** ** Record extraction *)

(** The dictionary [extract_paper_data] returns.  [primary_category] is
    what [Element.get] returned: [None] when the attribute is missing. *)
Record paper_data : Type := mkpaper_data {
  title : list N;
  summary : list N;
  doi : list N;
  arxiv_id : list N;
  arxiv_url : list N;
  authors : list (list N);
  year : list N;
  submission_date : list N;
  ris_date : list N;
  primary_category : option (list N);
  enw_date_8 : list N
}.

(** The four strings derived from the timestamp, in the order [year],
    [submission_date], [ris_date], [enw_date_8]. *)
Definition date_fields (published_date_str : list N)
    : list N * list N * list N * list N :=
  if Str.nonempty published_date_str then
    match strptime published_date_str with
    | Some dt =>
        (Str.of_nat (dt_year dt),
         fmt_Y dt ++ lit "/" ++ fmt_m dt ++ lit "/" ++ fmt_d dt ++ lit "/",
         fmt_Y dt ++ lit "/" ++ fmt_m dt ++ lit "/01/",
         month_name (dt_month dt) ++ lit " " ++ fmt_d dt ++ lit ", " ++ fmt_Y dt)
    | None => ([], [], [], [])
    end
  else ([], [], [], []).

(** [author.find('atom:name', NS).text.strip()]. *)
Definition author_name (author : Element) : result (list N) :=
  t ← dot_text (find author (lit "atom:name")); dot_strip t.

(** The identifier matched in the text of the id element and the URL
    built from it. *)
Definition identifier_of (arxiv_id_url : list N) : list N * list N :=
  let arxiv_id := default (lit "unknown") (search_arxiv_id arxiv_id_url) in
  let arxiv_url := lit "https://arxiv.org/abs/" ++ arxiv_id in
  (arxiv_id, arxiv_url).

Definition extract_paper_data (entry : Element) : result paper_data :=
  title ← safe_get_element entry (lit "atom:title") [];
  arxiv_id_url ← safe_get_element entry (lit "atom:id") [];
  summary ← safe_get_element entry (lit "atom:summary") [];
  published_date_str ← safe_get_element entry (lit "atom:published") [];
  doi ← safe_get_element entry (lit "arxiv:doi") [];
  let '(arxiv_id, arxiv_url) := identifier_of arxiv_id_url in
  authors ← traverse author_name (findall entry (lit "atom:author"));
  let primary_category :=
    match find entry (lit "arxiv:primary_category") with
    | Some primary_category_tag =>
        get_attrib (lit "{http://arxiv.org/schemas/atom}term") (attrib primary_category_tag)
    | None => Some []
    end in
  let '(year, submission_date, ris_date, enw_date_8) :=
    date_fields published_date_str in
  Ok (mkpaper_data title summary doi arxiv_id arxiv_url authors year
        submission_date ris_date primary_category enw_date_8).

(** ** The three renderers *)

Definition nl : list N := [10%N].

(** Python's truth value of [data['primary_category']]. *)
Definition truthy (o : option (list N)) : bool :=
  match o with
  | Some s => Str.nonempty s
  | None => false
  end.

(** A value that may be [None], as an f-string prints it. *)
Definition fmt_opt (o : option (list N)) : list N := default (lit "None") o.

Definition format_authors_for_bibtex (authors_list : list (list N)) : list N :=
  match authors_list with
  | [] => []
  | _ =>
      Str.join (lit " and ")
        (List.map
           (fun author_name =>
              let name_parts := Str.split author_name in
              if (1 <? length name_parts)%nat then
                let last_name := List.last name_parts [] in
                let first_names := Str.join (lit " ") (removelast name_parts) in
                last_name ++ lit ", " ++ first_names
              else author_name)
           authors_list)
  end.

(** [re.findall(r'\b[a-zA-Z0-9]+\b', title)]: the maximal runs of word
    characters that hold letters and digits only. *)
Definition key_words (title : list N) : list (list N) :=
  List.filter (Str.all Str.isalnum_ascii)
    (Str.fields (fun c => negb (Str.isword c)) title).

Definition generate_bibtex_key (title year : list N) : list N :=
  let words := key_words title in
  let key_parts := match words with [] => [lit "arxiv"] | _ => firstn 2 words end in
  let key := Str.lower (Str.join [] key_parts) ++ year in
  take 25 key.

Definition format_to_bibtex (data : paper_data) : list N :=
  let bibkey := generate_bibtex_key (title data) (year data) in
  let bibtex_authors := format_authors_for_bibtex (authors data) in
  let summary := Str.replace (ch "}") (lit "\}") (Str.replace (ch "{") (lit "\{") (summary data)) in
  let bibtex_body :=
    nl ++ lit "title = {{" ++ title data ++ lit "}}," ++
    nl ++ lit "author = {" ++ bibtex_authors ++ lit "}," ++
    nl ++ lit "journal = {arXiv}," ++
    nl ++ lit "archivePrefix = {arXiv}," ++
    nl ++ lit "eprint = {" ++ arxiv_id data ++ lit "}," in
  let bibtex_body :=
    if truthy (primary_category data) then
      bibtex_body ++ nl ++ lit "  primaryClass = {" ++
      fmt_opt (primary_category data) ++ lit "},"
    else bibtex_body in
  let bibtex_body :=
    if Str.nonempty (doi data) then
      bibtex_body ++ nl ++ lit "  doi = {" ++ doi data ++ lit "},"
    else bibtex_body in
  let bibtex_body :=
    bibtex_body ++
    nl ++ lit "year = {" ++ year data ++ lit "}," ++
    nl ++ lit "abstract = {{" ++ summary ++ lit "}}" ++ nl in
  let bibtex_entry :=
    nl ++ lit "@article{" ++ bibkey ++ lit "," ++ bibtex_body ++ nl ++ lit "}" ++ nl in
  Str.strip bibtex_entry.

(** [ris_entry.append(line)] when [cond] holds. *)
Definition when (cond : bool) (lines : list (list N)) : list (list N) :=
  if cond then lines else [].

Definition format_to_ris (data : paper_data) : list N :=
  let ris_entry :=
    [lit "TY  - JOUR"] ++
    [lit "T1  - " ++ title data] ++
    List.map (fun author_name => lit "AU  - " ++ author_name) (authors data) ++
    [lit "AB  - " ++ summary data] ++
    when (Str.nonempty (year data)) [lit "PY  - " ++ year data] ++
    when (Str.nonempty (submission_date data)) [lit "DA  - " ++ submission_date data] ++
    when (Str.nonempty (doi data)) [lit "DO  - " ++ doi data] ++
    [lit "UR  - " ++ arxiv_url data] ++
    [lit "JO  - arXiv"] ++
    [lit "PB  - arXiv"] ++
    when (truthy (primary_category data))
      [lit "KW  - " ++ fmt_opt (primary_category data)] ++
    [lit "EP  - " ++ arxiv_id data] ++
    [lit "ER  - "] in
  Str.join nl ris_entry.

Definition format_to_enw (data : paper_data) : list N :=
  let enw_entry :=
    [lit "%0 Journal Article"] ++
    [lit "%T " ++ title data] ++
    List.map (fun author_name => lit "%A " ++ author_name) (authors data) ++
    when (Str.nonempty (year data)) [lit "%Y " ++ year data] ++
    when (Str.nonempty (enw_date_8 data)) [lit "%8 " ++ enw_date_8 data] ++
    [lit "%J arXiv"] ++
    [lit "%K arXiv; " ++ fmt_opt (primary_category data)] ++
    when (Str.nonempty (doi data)) [lit "%R " ++ doi data] ++
    [lit "%Z arXiv:" ++ arxiv_id data] ++
    [lit "%U " ++ arxiv_url data] ++
    [lit "%X " ++ summary data] in
  Str.join nl enw_entry.

(** ** Parsing a response document *)

Definition separator : list N := nl ++ nl.

(** The fixed head of the error message ("API returned an error:"). *)
Definition api_error_prefix : list N :=
  [65; 80; 73; 32; 36820; 22238; 38169; 35823; 65306]%N.

(** [error_tag is not None and "Error" in error_tag.text]: the membership
    test on [None] is a [TypeError]. *)
Definition check_error_tag (error_tag : option Element) : result unit :=
  match error_tag with
  | None => Ok ()
  | Some el =>
      match text el with
      | None => Raise TypeError
      | Some t =>
          if Str.contains (lit "Error") t
          then Raise (Exception_ (api_error_prefix ++ Str.strip t))
          else Ok ()
      end
  end.

(** [root] is the tree [ET.fromstring(xml_content)] built. *)
Definition parse_arxiv_xml (root : Element) (formatter : paper_data -> list N)
    : result (list N) :=
  _ ← check_error_tag (find root (lit "atom:entry/atom:title"));
  formatted_entries ←
    traverse (fun entry => data ← extract_paper_data entry; Ok (formatter data))
             (findall root (lit "atom:entry"));
  Ok (Str.join separator formatted_entries).


(** ** [urllib.parse.unquote] *)

Definition hex_value (c : N) : option N :=
  if in_range 48 57 c then Some (c - 48)%N
  else if in_range 65 70 c then Some (c - 55)%N
  else if in_range 97 102 c then Some (c - 87)%N
  else None.

(** A character of a text once its escapes [%XX] are read: a byte, which
    is an ASCII character or the value of an escape, or a character that
    is not ASCII and stays as it is. *)
Inductive token : Type :=
| Byte (b : N)
| Wide (c : N).

Fixpoint tokens (s : list N) : list token :=
  match s with
  | [] => []
  | c :: r =>
      if (c <? 128)%N then
        match r with
        | a :: b :: r' =>
            match N.eqb c (ch "%"), hex_value a, hex_value b with
            | true, Some x, Some y => Byte (16 * x + y) :: tokens r'
            | _, _, _ => Byte c :: tokens r
            end
        | _ => Byte c :: tokens r
        end
      else Wide c :: tokens r
  end.

(** The decoder of UTF-8 in the middle of a character: [more] bytes are
    still to come, the next one between [lo] and [hi], and [acc] holds
    the bits read so far. *)
Record pending : Type := mkpending { more : nat; acc : N; lo : N; hi : N }.

Definition replacement : N := 65533.

(** The first byte of a character. *)
Definition start (b : N) : list N * option pending :=
  if (b <? 128)%N then ([b], None)
  else if in_range 194 223 b then ([], Some (mkpending 1 (b - 192) 128 191))
  else if in_range 224 239 b then
    ([], Some (mkpending 2 (b - 224)
                 (if N.eqb b 224 then 160 else 128)
                 (if N.eqb b 237 then 159 else 191)))
  else if in_range 240 244 b then
    ([], Some (mkpending 3 (b - 240)
                 (if N.eqb b 240 then 144 else 128)
                 (if N.eqb b 244 then 143 else 191)))
  else ([replacement], None).

(** One byte more: a byte that cannot continue the character ends it with
    the replacement character and begins another. *)
Definition feed (st : option pending) (b : N) : list N * option pending :=
  match st with
  | None => start b
  | Some p =>
      if in_range (lo p) (hi p) b then
        let v := (64 * acc p + (b - 128))%N in
        match more p with
        | S (S n) => ([], Some (mkpending (S n) v 128 191))
        | _ => ([v], None)
        end
      else let '(out, st') := start b in (replacement :: out, st')
  end.

Definition flush (st : option pending) : list N :=
  match st with Some _ => [replacement] | None => [] end.

(** [bytes.decode('utf-8', 'replace')] on each run of bytes, the
    characters that are not ASCII standing between the runs. *)
Fixpoint decode (st : option pending) (ts : list token) : list N :=
  match ts with
  | [] => flush st
  | Byte b :: r => let '(out, st') := feed st b in out ++ decode st' r
  | Wide c :: r => flush st ++ c :: decode None r
  end.

Definition unquote (s : list N) : list N :=
  if existsb (N.eqb (ch "%")) s then decode None (tokens s) else s.

(** ** Query building *)

Definition API_FIELD_MAP : gmap (list N) (list N) :=
  list_to_map
    [(lit "title", lit "ti"); (lit "author", lit "au"); (lit "abstract", lit "abs");
     (lit "comments", lit "comm"); (lit "journal_ref", lit "jr");
     (lit "acm_class", lit "acm"); (lit "msc_class", lit "msc");
     (lit "report_num", lit "rpt"); (lit "paper_id", lit "id");
     (lit "doi", lit "doi"); (lit "orcid", lit "orcid"); (lit "all", lit "all")].

(** [API_FIELD_MAP.get(field, 'all')]. *)
Definition api_field_of (field : list N) : list N :=
  default (lit "all") (API_FIELD_MAP !! field).

(** The three messages, as code points. *)
Definition simple_error : list N :=
  [85; 82; 76; 32; 20013; 26410; 25214; 21040; 32; 39; 113; 117; 101; 114;
   121; 39; 32; 25110; 32; 39; 115; 101; 97; 114; 99; 104; 116; 121; 112;
   101; 39; 32; 21442; 25968; 12290]%N.
Definition advanced_error : list N :=
  [85; 82; 76; 32; 20013; 26410; 25214; 21040; 26377; 25928; 30340; 32; 39;
   116; 101; 114; 109; 115; 45; 78; 45; 116; 101; 114; 109; 39; 32; 21442;
   25968; 12290]%N.
Definition search_type_error : list N :=
  [26080; 25928; 30340; 25628; 32034; 31867; 22411; 36873; 25321; 12290]%N.

Definition term_key (i : nat) : list N := lit "terms-" ++ Str.of_nat i ++ lit "-term".
Definition field_key (i : nat) : list N := lit "terms-" ++ Str.of_nat i ++ lit "-field".
Definition operator_key (i : nat) : list N :=
  lit "terms-" ++ Str.of_nat i ++ lit "-operator".

(** [name_value.split('=', 1)] when it has two pieces. *)
Fixpoint split_pair (name_value : list N) : option (list N * list N) :=
  match name_value with
  | [] => None
  | c :: r =>
      if N.eqb c (ch "=") then Some ([], r)
      else match split_pair r with
           | Some (n, v) => Some (c :: n, v)
           | None => None
           end
  end.

(** What [parse_qsl] does to a name and to a value:
    [unquote(x.replace('+', ' '))]. *)
Definition url_decode (x : list N) : list N :=
  unquote (Str.replace_char (ch "+") (ch " ") x).

(** [parse_qsl(qs)] with its defaults: a pair without [=] or with a
    blank value is dropped. *)
Definition parse_qsl (qs : list N) : list (list N * list N) :=
  flat_map
    (fun name_value =>
       match split_pair name_value with
       | Some (n, c :: v) => [(url_decode n, url_decode (c :: v))]
       | _ => []
       end)
    (split_on (ch "&") qs).

(** [parsed_result[name].append(value)] when the name is there already,
    [parsed_result[name] = [value]] when it is not. *)
Definition append_value (parsed_result : gmap (list N) (list (list N)))
    (pair : list N * list N) : gmap (list N) (list (list N)) :=
  let '(name, value) := pair in
  match parsed_result !! name with
  | Some values => <[name := values ++ [value]]> parsed_result
  | None => <[name := [value]]> parsed_result
  end.

(** [parse_qs(qs)]: the values of each name, in their order. *)
Definition parse_qs (qs : list N) : gmap (list N) (list (list N)) :=
  fold_left append_value (parse_qsl qs) ∅.

Section QueryBuilder.

(** Two library functions stay abstract: [urlparse(url).query], the query
    component of a URL, and [str.upper]. *)
Variable url_query : list N -> list N.
Variable upper : list N -> list N.

(** [parse_qs(urlparse(url).query)]. *)
Definition query_params_of (url : list N) : gmap (list N) (list (list N)) :=
  parse_qs (url_query url).

Definition parse_simple_search_url (url : list N) : result (list N) :=
  let query_params := query_params_of url in
  let query_list := default [] (query_params !! lit "query") in
  let searchtype_list := default [] (query_params !! lit "searchtype") in
  match query_list, searchtype_list with
  | query0 :: _, search_field :: _ =>
      let raw_query := unquote query0 in
      let api_field := api_field_of search_field in
      Ok (api_field ++ lit ":(" ++ raw_query ++ lit ")")
  | _, _ => Raise (ValueError simple_error)
  end.

(** The [while True] loop from index [i] on, with the parts collected so
    far; [None] when [fuel] iterations did not reach the [break]. *)
Fixpoint advanced_loop (query_params : gmap (list N) (list (list N)))
    (fuel i : nat) (complex_query_parts : list (list N)) : option (list (list N)) :=
  match fuel with
  | O => None
  | S fuel' =>
      match query_params !! term_key i with
      | None => Some complex_query_parts
      | Some term_value_list =>
          let field_value_list := query_params !! field_key i in
          let operator_list := query_params !! operator_key i in
          match term_value_list, field_value_list with
          | term0 :: _, Some (field0 :: _) =>
              let term := Str.strip (unquote term0) in
              let field := Str.strip field0 in
              let api_field := api_field_of field in
              let term_clean := Str.replace_char (ch "+") (ch " ") term in
              let query_part := lit "(" ++ api_field ++ lit ":(" ++ term_clean ++ lit "))" in
              let complex_query_parts :=
                match operator_list with
                | Some (operator0 :: _) =>
                    if (0 <? i)%nat
                    then complex_query_parts ++ [upper operator0]
                    else complex_query_parts
                | _ => complex_query_parts
                end in
              advanced_loop query_params fuel' (S i)
                (complex_query_parts ++ [query_part])
          | _, _ => advanced_loop query_params fuel' (S i) complex_query_parts
          end
      end
  end.

(** The loop has one iteration for each key [terms-i-term] it finds and
    one more for the [break], so one more than the size of the dictionary
    is fuel enough. *)
Definition parse_advanced_search_url (url : list N) : option (result (list N)) :=
  let query_params := query_params_of url in
  match advanced_loop query_params (S (size query_params)) 0 [] with
  | None => None
  | Some complex_query_parts =>
      let final_api_query := Str.join (lit " ") complex_query_parts in
      if Str.nonempty final_api_query then Some (Ok final_api_query)
      else Some (Raise (ValueError advanced_error))
  end.

Definition build_api_query (url : list N) (search_type : nat)
    : option (result (list N)) :=
  match search_type with
  | 1 => Some (parse_simple_search_url url)
  | 2 => parse_advanced_search_url url
  | _ => Some (Raise (ValueError search_type_error))
  end.

End QueryBuilder.

(** ** Notions the properties are stated with *)

(** A run of [Str.fields]: not empty and without a separator. *)
Definition run (sep : N -> bool) (w : list N) : Prop :=
  w <> [] /\ Str.all (fun c => negb (sep c)) w = true.

(** [n] digits. *)
Definition digits (n : nat) (s : list N) : Prop :=
  length s = n /\ Str.all Str.isdigit s = true.

(** Four digits, a dot and five digits, then possibly [v] and a version
    number. *)
Definition id_shape (m : list N) : Prop :=
  exists a b, digits 4 a /\ digits 5 b /\
    (m = a ++ lit "." ++ b \/
     exists k, k <> [] /\ Str.all Str.isdigit k = true /\
               m = a ++ lit "." ++ b ++ lit "v" ++ k).

Definition starts_with_digit (s : list N) : bool :=
  match s with
  | c :: _ => Str.isdigit c
  | [] => false
  end.

Definition is_nl (c : N) : bool := N.eqb c 10.

(** [doc.count('\n\n')]: the blank lines of a document, counted from the
    left without overlap. *)
Fixpoint count_blank_lines (doc : list N) : nat :=
  match doc with
  | a :: (b :: r) as t =>
      if is_nl a && is_nl b then S (count_blank_lines r) else count_blank_lines t
  | _ => 0
  end.

Fixpoint ends_with_nl (s : list N) : bool :=
  match s with
  | [] => false
  | [c] => is_nl c
  | _ :: r => ends_with_nl r
  end.

(** A block without a blank line of its own that does not end in a newline. *)
Definition tidy (block : list N) : Prop :=
  count_blank_lines block = 0 /\ ends_with_nl block = false.

(** A text without a newline, and a record whose fields are such texts. *)
Definition one_line (s : list N) : Prop :=
  Str.all (fun c => negb (is_nl c)) s = true.

Definition one_line_record (data : paper_data) : Prop :=
  one_line (title data) /\ one_line (summary data) /\ one_line (doi data) /\
  one_line (arxiv_id data) /\ one_line (arxiv_url data) /\
  Forall one_line (authors data) /\ one_line (year data) /\
  one_line (submission_date data) /\ one_line (fmt_opt (primary_category data)) /\
  one_line (enw_date_8 data).

(** The text of the title of the first entry, when it has one. *)
Definition first_entry_title (root : Element) : option (list N) :=
  match findall root (lit "atom:entry") with
  | entry :: _ =>
      match find entry (lit "atom:title") with
      | Some el => text el
      | None => None
      end
  | [] => None
  end.


(** The parameters of a query string as they are written, before any
    decoding: the pairs [name=value] with a value that is not blank. *)
Definition raw_pairs (qs : list N) : list (list N * list N) :=
  flat_map
    (fun name_value =>
       match split_pair name_value with
       | Some (n, c :: v) => [(n, c :: v)]
       | _ => []
       end)
    (split_on (ch "&") qs).

(** The values written for the parameter [name], in their order. *)
Definition raw_values (qs name : list N) : list (list N) :=
  List.map snd
    (List.filter (fun p => str_eqb (url_decode (fst p)) name) (raw_pairs qs)).

Definition decoded_twice (raw : list N) : list N := unquote (url_decode raw).

(** The parts index [i] contributes to an advanced query, from the values
    written in the query string [qs]: nothing without a term and a field,
    else the clause, after the operator in capitals when [i > 0] and there
    is one.  [term_text] is the decoding of the written term. *)
Definition clause_parts (term_text upper : list N -> list N) (qs : list N)
    (i : nat) : list (list N) :=
  match raw_values qs (term_key i), raw_values qs (field_key i) with
  | term0 :: _, field0 :: _ =>
      match raw_values qs (operator_key i) with
      | operator0 :: _ => if (0 <? i)%nat then [upper (url_decode operator0)] else []
      | [] => []
      end ++
      [lit "(" ++ api_field_of (Str.strip (url_decode field0)) ++ lit ":(" ++
       Str.replace_char (ch "+") (ch " ") (Str.strip (term_text term0)) ++
       lit "))"]
  | _, _ => []
  end.

(** The advanced query made of the parts of the indices below [n]. *)
Definition query_of_parts (term_text upper : list N -> list N) (qs : list N)
    (n : nat) : result (list N) :=
  match flat_map (clause_parts term_text upper qs) (seq 0 n) with
  | [] => Raise (MalformedQuery advanced_error)
  | parts => Ok (Str.join (lit " ") parts)
  end.

(** Two decimal digits for a number below 100. *)
Definition two_digits (n : nat) : list N :=
  [(48 + N.of_nat (n / 10))%N; (48 + N.of_nat (n mod 10))%N].

(** ** Sample documents *)

(** For the sample URLs, which have no fragment: the query is what follows
    the first question mark.  The operators of the samples are ASCII
    words, whose capitals are those of their letters [a] to [z]. *)
Fixpoint after_char (x : N) (s : list N) : list N :=
  match s with
  | [] => []
  | c :: r => if N.eqb c x then r else after_char x r
  end.

Definition sample_url_query (url : list N) : list N := after_char (ch "?") url.
Definition sample_upper (s : list N) : list N :=
  List.map (fun c => if in_range 97 122 c then (c - 32)%N else c) s.

Definition no_query_url : list N :=
  lit "https://arxiv.org/search/?query=&searchtype=title".


Definition atom (name : list N) : list N := lit "{http://www.w3.org/2005/Atom}" ++ name.
Definition arxiv (name : list N) : list N := lit "{http://arxiv.org/schemas/atom}" ++ name.

Definition leaf (t body : list N) : Element := Elem t [] (Some body) [].

Definition sample_entry : Element :=
  Elem (atom (lit "entry")) [] None
    [leaf (atom (lit "id")) (lit "http://arxiv.org/abs/2310.12345v2");
     leaf (atom (lit "published")) (lit "2023-10-19T17:58:01Z");
     leaf (atom (lit "title")) (lit "Deep Learning Methods");
     leaf (atom (lit "summary")) (lit "We study  {deep} nets.");
     Elem (atom (lit "author")) [] None [leaf (atom (lit "name")) (lit "Jane A Doe")];
     Elem (arxiv (lit "primary_category"))
          [(lit "{http://arxiv.org/schemas/atom}term", lit "cs.LG")] None []].

Definition sample_data : paper_data :=
  {| title := lit "Deep Learning Methods";
     summary := lit "We study deep nets.";
     doi := [];
     arxiv_id := lit "2310.12345v2";
     arxiv_url := lit "https://arxiv.org/abs/2310.12345v2";
     authors := [lit "Jane A Doe"];
     year := lit "2023";
     submission_date := lit "2023/10/19/";
     ris_date := lit "2023/10/01/";
     primary_category := Some (lit "cs.LG");
     enw_date_8 := lit "October 19, 2023" |}.

(** An entry whose summary element has no text: [<summary/>]. *)
Definition empty_summary_entry : Element :=
  Elem (atom (lit "entry")) [] None
    [leaf (atom (lit "id")) (lit "http://arxiv.org/abs/2310.12345v2");
     leaf (atom (lit "title")) (lit "Deep Learning Methods");
     Elem (atom (lit "summary")) [] None []].

(** An entry whose id text holds [2310.12345v2] followed by a digit. *)
Definition longer_version_entry : Element :=
  Elem (atom (lit "entry")) [] None
    [leaf (atom (lit "id")) (lit "http://arxiv.org/abs/2310.12345v23")].



(** The error feed of the catalog, its title padded with white space. *)
Definition error_feed : Element :=
  Elem (atom (lit "feed")) [] None
    [Elem (atom (lit "entry")) [] None
       [leaf (atom (lit "id")) (lit "http://arxiv.org/api/errors#incorrect_id_format_for_1");
        leaf (atom (lit "title")) (lit " Error ")]].

(** A feed whose first entry has a title element without text: [<title/>]. *)
Definition textless_title_feed : Element :=
  Elem (atom (lit "feed")) [] None
    [Elem (atom (lit "entry")) [] None [Elem (atom (lit "title")) [] None []]].

(** ** The statements of the specification that need amending *)


(** The blocks a renderer makes of a list of records, joined, hold one
    blank line less than there are records. *)
Definition blank_line_claim (formatter : paper_data -> list N)
    (records : list paper_data) : Prop :=
  1 <= length records ->
  count_blank_lines (Str.join separator (List.map formatter records)) =
  length records - 1.



(** An id text that holds [2310.12345v2] gives that identifier. *)
Definition id_example_claim (entry : Element) : Prop :=
  forall data u,
    extract_paper_data entry = Ok data ->
    safe_get_element entry (lit "atom:id") [] = Ok u ->
    Str.contains (lit "2310.12345v2") u = true ->
    arxiv_id data = lit "2310.12345v2" /\
    arxiv_url data = lit "https://arxiv.org/abs/2310.12345v2".


(** ** Further notions: extraction *)

(** The summary element, when there is one, has a text. *)
Definition summary_ok (entry : Element) : bool :=
  match find entry (lit "atom:summary") with
  | Some el => match text el with Some _ => true | None => false end
  | None => true
  end.

(** The author element has a name element with a text. *)
Definition author_ok (author : Element) : bool :=
  match find author (lit "atom:name") with
  | Some el => match text el with Some _ => true | None => false end
  | None => false
  end.

(** A text that [strip] leaves as it is. *)
Definition stripped (s : list N) : Prop := Str.strip s = s.

(** What the summary of a record may hold: no character of the class
    [[\\{}$]], and no white space but the space. *)
Definition summary_char (c : N) : bool :=
  negb (latex_special c) && (negb (Str.isspace c) || N.eqb c (ch " ")).

(** The text a plain lookup returns: the stripped text of the first
    element at the path, or the empty default. *)
Definition plain_text (element : Element) (xpath : list N) : list N :=
  match find element xpath with
  | Some el => match text el with Some t => Str.strip t | None => [] end
  | None => []
  end.

(** A text that does not begin with white space. *)
Definition head_nonspace (s : list N) : Prop :=
  match s with
  | c :: _ => Str.isspace c = false
  | [] => True
  end.

(** ** Further notions: timestamps *)

(** One of the characters [0] to [9]. *)
Definition ascii_digit (c : N) : bool := in_range 48 57 c.

Definition digit_chars : list N := [48; 49; 50; 51; 52; 53; 54; 55; 56; 57]%N.

(** The number a text of such characters writes. *)
Definition number_of (s : list N) : nat :=
  fold_left (fun v c => 10 * v + N.to_nat (c - 48)) s 0.

(** A directive of one or two digits reads two digits, one digit, or,
    for the day, a space and a digit. *)
Definition read_field (allow_space : bool) (s r : list N) (v : nat) : Prop :=
  (exists a b, s = a :: b :: r /\ Str.isdigit a = true /\
               Str.isdigit b = true /\ v = 10 * digit_value a + digit_value b) \/
  (exists a, s = a :: r /\ Str.isdigit a = true /\ v = digit_value a) \/
  (allow_space = true /\ exists a, s = ch " " :: a :: r /\ v = digit_value a).

(** A published text written [YYYY-MM-DDT] and then any text. *)
Definition dated_text (y1 y2 y3 y4 m1 m2 d1 d2 : N) (time : list N) : list N :=
  [y1; y2; y3; y4] ++ lit "-" ++ [m1; m2] ++ lit "-" ++ [d1; d2] ++ lit "T" ++ time.

(** ** Further notions: rendering *)

(** A character of a citation key: a digit or a lower-case letter of
    ASCII. *)
Definition key_char (c : N) : bool := in_range 48 57 c || in_range 97 122 c.

(** An author name as the BibTeX renderer writes it when the name has the
    words [ws], two at least: the last word, a comma, the other words. *)
Definition last_first (ws : list (list N)) : list N :=
  List.last ws [] ++ lit ", " ++ Str.join (lit " ") (removelast ws).

(** The list of lines [format_to_ris] joins. *)
Definition ris_lines (data : paper_data) : list (list N) :=
  [lit "TY  - JOUR"] ++
  [lit "T1  - " ++ title data] ++
  List.map (fun author_name => lit "AU  - " ++ author_name) (authors data) ++
  [lit "AB  - " ++ summary data] ++
  when (Str.nonempty (year data)) [lit "PY  - " ++ year data] ++
  when (Str.nonempty (submission_date data)) [lit "DA  - " ++ submission_date data] ++
  when (Str.nonempty (doi data)) [lit "DO  - " ++ doi data] ++
  [lit "UR  - " ++ arxiv_url data] ++
  [lit "JO  - arXiv"] ++
  [lit "PB  - arXiv"] ++
  when (truthy (primary_category data))
    [lit "KW  - " ++ fmt_opt (primary_category data)] ++
  [lit "EP  - " ++ arxiv_id data] ++
  [lit "ER  - "].

(** The list of lines [format_to_enw] joins. *)
Definition enw_lines (data : paper_data) : list (list N) :=
  [lit "%0 Journal Article"] ++
  [lit "%T " ++ title data] ++
  List.map (fun author_name => lit "%A " ++ author_name) (authors data) ++
  when (Str.nonempty (year data)) [lit "%Y " ++ year data] ++
  when (Str.nonempty (enw_date_8 data)) [lit "%8 " ++ enw_date_8 data] ++
  [lit "%J arXiv"] ++
  [lit "%K arXiv; " ++ fmt_opt (primary_category data)] ++
  when (Str.nonempty (doi data)) [lit "%R " ++ doi data] ++
  [lit "%Z arXiv:" ++ arxiv_id data] ++
  [lit "%U " ++ arxiv_url data] ++
  [lit "%X " ++ summary data].

(** The slice [s[n:]]. *)
Fixpoint str_drop (n : nat) (s : list N) : list N :=
  match n, s with
  | S n', _ :: r => str_drop n' r
  | _, _ => s
  end.

(** The lines of a block that begin with a tag, without the tag. *)
Definition tagged_lines (tag_ : list N) (block : list N) : list (list N) :=
  List.map (str_drop (length tag_))
    (List.filter (Str.startswith tag_) (split_on 10 block)).

(** ** The export of a response *)

(** [s.count(sub)] from the left without overlap: [skip] characters are
    still part of the last occurrence counted. *)
Fixpoint count_from (sub : list N) (skip : nat) (s : list N) : nat :=
  match s with
  | [] => 0
  | _ :: r =>
      match skip with
      | S k => count_from sub k r
      | O =>
          if Str.startswith sub s
          then S (count_from sub (length sub - 1) r)
          else count_from sub 0 r
      end
  end.

Definition str_count (sub s : list N) : nat :=
  match sub with
  | [] => S (length s)
  | _ => count_from sub 0 s
  end.

(** [FORMAT_MAP[output_format]]: [None] stands for the [KeyError]. *)
Definition FORMAT_MAP (output_format : nat)
    : option (list N * (paper_data -> list N) * list N) :=
  match output_format with
  | 1 => Some (lit "ris", format_to_ris, lit "RIS")
  | 2 => Some (lit "bib", format_to_bibtex, lit "BibTeX")
  | 3 => Some (lit "enw", format_to_enw, lit "EndNote Tagged (ENW)")
  | _ => None
  end.

(** The number of records [run_batch_export] reports. *)
Definition exported_count (extension output_content : list N) : nat :=
  let count_tag :=
    if str_eqb extension (lit "ris") then (lit "TY - JOUR")
    else if str_eqb extension (lit "enw") then (lit "%0 Journal Article")
    else (lit "@article") in
  str_count (hd [] (split_on (ch " ") count_tag)) output_content.

(** How [run_batch_export] ends once the response is there, [root] being
    its parsed text: a parse error is reported, an empty document is
    reported as nothing found, and a document is written to a file with
    the extension of the format, and its records are counted.  The request
    and the writing of the file are outside. *)
Inductive export_outcome : Type :=
| ParseFailed (e : exn)
| NothingFound
| Exported (extension output_content : list N) (count : nat).

Definition run_batch_export (root : Element) (output_format : nat)
    : option export_outcome :=
  match FORMAT_MAP output_format with
  | None => None
  | Some (extension, formatter, format_name) =>
      Some
        match parse_arxiv_xml root formatter with
        | Raise e => ParseFailed e
        | Ok output_content =>
            if Str.nonempty output_content
            then Exported extension output_content
                   (exported_count extension output_content)
            else NothingFound
        end
  end.

(** A feed of one entry whose title holds the letters [TY]. *)
Definition property_feed : Element :=
  Elem (atom (lit "feed")) [] None
    [Elem (atom (lit "entry")) [] None
       [leaf (atom (lit "id")) (lit "http://arxiv.org/abs/2310.12345v2");
        leaf (atom (lit "title")) (lit "TYPE THEORY")]].

(** * Properties *)

(** ** Strings *)

Lemma append_nil_l (s : list N) : [] ++ s = s.
Proof. reflexivity. Qed.

Lemma append_cons (c : N) (a b : list N) :
  (c :: a) ++ b = (c :: (a ++ b)).
Proof. reflexivity. Qed.

Lemma append_nil_r (s : list N) : s ++ [] = s.
Proof.
  induction s as [|c s IH]; [reflexivity|].
  rewrite append_cons, IH. reflexivity.
Qed.

Lemma append_assoc (a b c : list N) : (a ++ b) ++ c = a ++ (b ++ c).
Proof.
  induction a as [|x a IH]; [reflexivity|].
  rewrite !append_cons, IH. reflexivity.
Qed.

Lemma join_cons2 (sep x y : list N) (l : list (list N)) :
  Str.join sep (x :: y :: l) = x ++ sep ++ Str.join sep (y :: l).
Proof. reflexivity. Qed.

Lemma all_append (p : N -> bool) (a b : list N) :
  Str.all p (a ++ b) = Str.all p a && Str.all p b.
Proof.
  induction a as [|c a IH]; [reflexivity|].
  rewrite append_cons. simpl. rewrite IH, andb_assoc. reflexivity.
Qed.

Lemma all_join (p : N -> bool) (sep : list N) (l : list (list N)) :
  Str.all p sep = true ->
  Forall (fun w => Str.all p w = true) l ->
  Str.all p (Str.join sep l) = true.
Proof.
  intros Hsep Hl. induction Hl as [|w l Hw Hl IH]; [reflexivity|].
  destruct l as [|y l]; [exact Hw|].
  rewrite join_cons2, !all_append, Hw, Hsep, IH. reflexivity.
Qed.

Lemma filter_all (p : N -> bool) (s : list N) :
  Str.all p (List.filter p s) = true.
Proof.
  induction s as [|c s IH]; [reflexivity|].
  simpl. destruct (p c) eqn:E; [simpl; rewrite E|]; exact IH.
Qed.

Lemma filter_id (p : N -> bool) (s : list N) :
  Str.all p s = true -> List.filter p s = s.
Proof.
  induction s as [|c s IH]; [reflexivity|].
  simpl. intros [Hc Hs]%andb_true_iff. rewrite Hc, IH by exact Hs. reflexivity.
Qed.

(** ** The runs [Str.fields] returns *)

Section Fields.

Variable sep : N -> bool.

Local Abbreviation run := (run sep).

Lemma fields_cons_sep (c : N) (s : list N) :
  sep c = true -> Str.fields sep ((c :: s)) = Str.fields sep s.
Proof. intros H. simpl. rewrite H. reflexivity. Qed.

Lemma fields_runs (s : list N) : Forall run (Str.fields sep s).
Proof.
  induction s as [|c s IH]; [constructor|].
  simpl. destruct (sep c) eqn:Ec; [exact IH|].
  assert (Hc : run ([c])).
  { split; [discriminate|]. simpl. rewrite Ec. reflexivity. }
  destruct s as [|d s']; [repeat constructor; apply Hc|].
  destruct (sep d) eqn:Ed; [constructor; [exact Hc|exact IH]|].
  destruct (Str.fields sep ((d :: s'))) as [|w ws]; [repeat constructor; apply Hc|].
  inversion IH as [|? ? [_ Hw] Hws]; subst.
  constructor; [|exact Hws].
  split; [discriminate|]. simpl. rewrite Ec, Hw. reflexivity.
Qed.

Lemma fields_all (p : N -> bool) (s : list N) :
  Str.all p s = true -> Forall (fun w => Str.all p w = true) (Str.fields sep s).
Proof.
  induction s as [|c s IH]; [constructor|].
  intros H. pose proof H as [Hc Hs]%andb_true_iff. specialize (IH Hs).
  assert (Hc1 : Str.all p ([c]) = true) by (simpl; rewrite Hc; reflexivity).
  cbn [Str.fields]. destruct (sep c); [exact IH|].
  destruct s as [|d s']; [repeat constructor; exact Hc1|].
  destruct (sep d); [constructor; [exact Hc1|exact IH]|].
  destruct (Str.fields sep ((d :: s'))) as [|w ws]; [repeat constructor; exact Hc1|].
  inversion IH as [|? ? Hw Hws]; subst.
  constructor; [|exact Hws]. simpl. rewrite Hc, Hw. reflexivity.
Qed.

(** A run is returned whole. *)
Lemma fields_run (w : list N) : run w -> Str.fields sep w = [w].
Proof.
  induction w as [|c w IH]; intros [Hne Hall]; [congruence|].
  simpl in Hall. apply andb_true_iff in Hall as [Hc Hw].
  apply negb_true_iff in Hc.
  destruct w as [|d w'].
  - simpl. rewrite Hc. reflexivity.
  - assert (Hr : run ((d :: w'))) by (split; [discriminate|exact Hw]).
    specialize (IH Hr).
    pose proof Hw as Hd. simpl in Hd. apply andb_true_iff in Hd as [Hd _].
    apply negb_true_iff in Hd.
    change (Str.fields sep ((c :: ((d :: w')))))
      with (if sep c then Str.fields sep ((d :: w'))
            else if sep d then [c] :: Str.fields sep ((d :: w'))
            else match Str.fields sep ((d :: w')) with
                 | w :: ws => (c :: w) :: ws
                 | [] => [[c]]
                 end).
    rewrite Hc, Hd, IH. reflexivity.
Qed.

(** A run, one separator, and more text. *)
Lemma fields_run_sep (w : list N) (x : N) (rest : list N) :
  run w -> sep x = true ->
  Str.fields sep (w ++ (x :: rest)) = w :: Str.fields sep rest.
Proof.
  intros Hr Hx. induction w as [|c w IH]; destruct Hr as [Hne Hall]; [congruence|].
  simpl in Hall. apply andb_true_iff in Hall as [Hc Hw].
  apply negb_true_iff in Hc.
  destruct w as [|d w'].
  - rewrite append_cons, append_nil_l. simpl. rewrite Hc, Hx. reflexivity.
  - assert (Hr : run ((d :: w'))) by (split; [discriminate|exact Hw]).
    specialize (IH Hr).
    pose proof Hw as Hd. simpl in Hd. apply andb_true_iff in Hd as [Hd _].
    apply negb_true_iff in Hd.
    rewrite !append_cons in *.
    change (Str.fields sep ((c :: ((d :: (w' ++ (x :: rest)))))))
      with (if sep c then Str.fields sep ((d :: (w' ++ (x :: rest))))
            else if sep d
                 then [c] :: Str.fields sep ((d :: (w' ++ (x :: rest))))
            else match Str.fields sep ((d :: (w' ++ (x :: rest)))) with
                 | w :: ws => (c :: w) :: ws
                 | [] => [[c]]
                 end).
    rewrite Hc, Hd, IH. reflexivity.
Qed.

(** Joining runs with one separator and cutting again gives the runs back. *)
Lemma fields_join (x : N) (ws : list (list N)) :
  sep x = true -> Forall run ws ->
  Str.fields sep (Str.join ([x]) ws) = ws.
Proof.
  intros Hx Hws. induction Hws as [|w ws Hw Hws IH]; [reflexivity|].
  destruct ws as [|y ws]; [apply fields_run, Hw|].
  rewrite join_cons2, append_cons, append_nil_l.
  rewrite fields_run_sep by assumption. rewrite IH. reflexivity.
Qed.

End Fields.

Example normalize_summary_ex :
  normalize_summary
    ((10%N :: (lit "  We  study ${x}$")) ++
     (10%N :: (lit " and \alpha ")) ++ [9%N]) =
  lit "We study x and alpha".
Proof. vm_compute. reflexivity. Qed.

Lemma remove_latex_join_split (text : list N) :
  remove_latex (Str.join (lit " ") (Str.split (remove_latex text))) =
  Str.join (lit " ") (Str.split (remove_latex text)).
Proof.
  apply filter_id, all_join; [reflexivity|].
  apply fields_all, filter_all.
Qed.

(** C6: cleaning a summary that is already clean changes nothing. *)
Theorem normalize_summary_idempotent (text : list N) :
  normalize_summary (normalize_summary text) = normalize_summary text.
Proof.
  unfold normalize_summary at 1 3.
  fold (normalize_summary text). unfold normalize_summary at 1.
  rewrite remove_latex_join_split.
  unfold Str.split. change (lit " ") with [ch " "].
  rewrite fields_join; [reflexivity|reflexivity|apply fields_runs].
Qed.

(** ** Results *)

Lemma bind_Ok {A B} (r : result A) (k : A -> result B) (b : B) :
  (r ≫= k) = Ok b -> exists a, r = Ok a /\ k a = Ok b.
Proof. destruct r as [a|e]; [eauto|discriminate]. Qed.

Ltac bind_inv H :=
  let a := fresh "v" in
  let Ha := fresh "Hv" in
  apply bind_Ok in H as (a & Ha & H).

Lemma extract_dates (entry : Element) (data : paper_data) (p : list N) :
  extract_paper_data entry = Ok data ->
  safe_get_element entry (lit "atom:published") [] = Ok p ->
  (year data, submission_date data, ris_date data, enw_date_8 data) = date_fields p.
Proof.
  intros H Hp. unfold extract_paper_data in H.
  do 4 bind_inv H. rewrite Hp in Hv2. injection Hv2 as <-.
  do 2 bind_inv H.
  destruct (date_fields p) as [[[y sd] rd] ed].
  injection H as <-. reflexivity.
Qed.


Lemma str_eqb_eq (a b : list N) : str_eqb a b = true <-> a = b.
Proof.
  revert b. induction a as [|x a IH]; intros [|y b]; simpl; try (split; [discriminate|congruence]).
  - split; reflexivity.
  - rewrite andb_true_iff, N.eqb_eq, IH. split; [intros [-> ->]; reflexivity|].
    intros [= -> ->]. split; reflexivity.
Qed.

Lemma str_eqb_refl (a : list N) : str_eqb a a = true.
Proof. apply str_eqb_eq. reflexivity. Qed.

(** ** Timestamps *)

Lemma of_nat_nonempty (n : nat) : Str.of_nat n <> [].
Proof. unfold Str.of_nat. destruct (Nat.to_uint n); discriminate. Qed.

Lemma append_nonempty_r (a b : list N) : b <> [] -> a ++ b <> [].
Proof. intros Hb. destruct a as [|c a]; [exact Hb|discriminate]. Qed.

Lemma append_nonempty_l (a b : list N) : a <> [] -> a ++ b <> [].
Proof. destruct a as [|c a]; [congruence|discriminate]. Qed.

Lemma strptime_empty : strptime [] = None.
Proof. reflexivity. Qed.

Lemma strptime_valid (s : list N) (dt : datetime) :
  strptime s = Some dt -> valid_datetime dt = true.
Proof.
  unfold strptime. destruct (format_matches s) as [|[d [|c r]] l]; try discriminate.
  destruct (valid_datetime d) eqn:E; [|discriminate].
  intros [= <-]. exact E.
Qed.

Lemma days_in_month_le (y m : nat) : days_in_month y m <= 31.
Proof.
  unfold days_in_month.
  do 12 (destruct m as [|m]; [try destruct (is_leap y); lia|]). lia.
Qed.

Lemma valid_datetime_bounds (dt : datetime) :
  valid_datetime dt = true ->
  1 <= dt_year dt <= 9999 /\ 1 <= dt_month dt <= 12 /\ 1 <= dt_day dt <= 31.
Proof.
  unfold valid_datetime. rewrite !andb_true_iff, !Nat.leb_le.
  pose proof (days_in_month_le (dt_year dt) (dt_month dt)). lia.
Qed.

(** The four strings are all filled in or all empty. *)
Lemma date_fields_cases (p : list N) :
  match strptime p with
  | Some dt =>
      date_fields p =
        (Str.of_nat (dt_year dt),
         fmt_Y dt ++ lit "/" ++ fmt_m dt ++ lit "/" ++ fmt_d dt ++ lit "/",
         fmt_Y dt ++ lit "/" ++ fmt_m dt ++ lit "/01/",
         month_name (dt_month dt) ++ lit " " ++ fmt_d dt ++ lit ", " ++ fmt_Y dt)
  | None => date_fields p = ([], [], [], [])
  end.
Proof.
  unfold date_fields. destruct p as [|c p]; [reflexivity|].
  simpl Str.nonempty. cbv iota.
  destruct (strptime (c :: p)); reflexivity.
Qed.

(** C1: the record of an entry has its four date strings all non-empty
    when the published text parses as a timestamp, and all empty when the
    text is missing or does not parse. *)
Theorem date_fields_all_or_none (entry : Element) (data : paper_data) (p : list N) :
  extract_paper_data entry = Ok data ->
  safe_get_element entry (lit "atom:published") [] = Ok p ->
  (is_Some (strptime p) /\
   year data <> [] /\ submission_date data <> [] /\
   ris_date data <> [] /\ enw_date_8 data <> [])
  \/
  ((p = [] \/ strptime p = None) /\
   year data = [] /\ submission_date data = [] /\
   ris_date data = [] /\ enw_date_8 data = []).
Proof.
  intros H Hp. pose proof (extract_dates _ _ _ H Hp) as E.
  pose proof (date_fields_cases p) as C.
  destruct (strptime p) as [dt|].
  - left. rewrite C in E. injection E as -> -> -> ->.
    split; [eauto|]. repeat split.
    + apply of_nat_nonempty.
    + apply append_nonempty_l, of_nat_nonempty.
    + apply append_nonempty_l, of_nat_nonempty.
    + apply append_nonempty_r. discriminate.
  - right. rewrite C in E. injection E as -> -> -> ->.
    repeat split; auto.
Qed.

(** The month and the day are printed on two digits. *)
Lemma zfill_two_digits (n : nat) : n <= 99 -> Str.zfill 2 n = two_digits n.
Proof.
  intros Hn.
  assert (Hall : forallb (fun k => str_eqb (Str.zfill 2 k) (two_digits k)) (seq 0 100) = true)
    by (vm_compute; reflexivity).
  rewrite forallb_forall in Hall.
  apply str_eqb_eq, Hall, in_seq. lia.
Qed.

(** ** A timestamp written with all its digits *)

Lemma ascii_digit_In (c : N) : ascii_digit c = true -> In c digit_chars.
Proof.
  unfold ascii_digit, in_range. rewrite andb_true_iff, !N.leb_le. intros [Hlo Hhi].
  assert (H : (c = 48 \/ c = 49 \/ c = 50 \/ c = 51 \/ c = 52 \/ c = 53 \/ c = 54 \/
               c = 55 \/ c = 56 \/ c = 57)%N) by lia.
  unfold digit_chars. simpl. intuition.
Qed.

Lemma ascii_digit_isdigit (c : N) : ascii_digit c = true -> Str.isdigit c = true.
Proof.
  intros H%ascii_digit_In.
  assert (Hall : forallb Str.isdigit digit_chars = true) by (vm_compute; reflexivity).
  rewrite forallb_forall in Hall. apply Hall, H.
Qed.

Lemma ascii_digit_value (c : N) :
  ascii_digit c = true -> digit_value c = N.to_nat (c - 48).
Proof.
  intros H%ascii_digit_In.
  assert (Hall : forallb (fun x => digit_value x =? N.to_nat (x - 48)) digit_chars = true)
    by (vm_compute; reflexivity).
  rewrite forallb_forall in Hall. apply Nat.eqb_eq, Hall, H.
Qed.

Lemma two_digits_chars (a b : N) :
  ascii_digit a = true -> ascii_digit b = true ->
  two_digits (10 * digit_value a + digit_value b) = [a; b].
Proof.
  intros Ha%ascii_digit_In Hb%ascii_digit_In.
  assert (Hall : forallb (fun x => forallb (fun y =>
            str_eqb (two_digits (10 * digit_value x + digit_value y)) [x; y])
            digit_chars) digit_chars = true) by (vm_compute; reflexivity).
  rewrite forallb_forall in Hall. specialize (Hall a Ha).
  rewrite forallb_forall in Hall. apply str_eqb_eq, Hall, Hb.
Qed.

Lemma range_isdigit (lo hi : ascii) (c : N) :
  ascii_digit (ch lo) = true -> ascii_digit (ch hi) = true ->
  range lo hi c = true -> Str.isdigit c = true.
Proof.
  intros Hlo Hhi H. apply ascii_digit_isdigit.
  unfold ascii_digit, range, in_range in *.
  rewrite !andb_true_iff, !N.leb_le in *. lia.
Qed.

Lemma is_char_eq (x : ascii) (c : N) : is_char x c = true -> c = ch x.
Proof. unfold is_char. apply N.eqb_eq. Qed.

Lemma is_char_isdigit (x : ascii) (c : N) :
  Str.isdigit (ch x) = true -> is_char x c = true -> Str.isdigit c = true.
Proof. intros Hx ->%is_char_eq. exact Hx. Qed.

Lemma two_inv (p1 p2 : N -> bool) (s r : list N) (v : nat) :
  In (v, r) (two p1 p2 s) ->
  exists a b, s = a :: b :: r /\ p1 a = true /\ p2 b = true /\
              v = 10 * digit_value a + digit_value b.
Proof.
  unfold two. destruct s as [|a [|b t]]; try (intros []).
  destruct (p1 a) eqn:Ea; [|intros []]. destruct (p2 b) eqn:Eb; [|intros []].
  intros [[= <- <-]|[]]. exists a, b. repeat split; assumption.
Qed.

Lemma one_inv (p : N -> bool) (s r : list N) (v : nat) :
  In (v, r) (one p s) ->
  exists a, s = a :: r /\ p a = true /\ v = digit_value a.
Proof.
  unfold one. destruct s as [|a t]; [intros []|].
  destruct (p a) eqn:Ea; [|intros []].
  intros [[= <- <-]|[]]. exists a. repeat split; assumption.
Qed.

Lemma directive_Y_inv (s r : list N) (v : nat) :
  In (v, r) (directive_Y s) ->
  exists a b c d,
    s = a :: b :: c :: d :: r /\
    Str.isdigit a = true /\ Str.isdigit b = true /\
    Str.isdigit c = true /\ Str.isdigit d = true /\
    v = 1000 * digit_value a + 100 * digit_value b
        + 10 * digit_value c + digit_value d.
Proof.
  unfold directive_Y. destruct s as [|a [|b [|c [|d t]]]]; try (intros []).
  destruct (Str.isdigit a) eqn:Ea; [|intros []].
  destruct (Str.isdigit b) eqn:Eb; [|intros []].
  destruct (Str.isdigit c) eqn:Ec; [|intros []].
  destruct (Str.isdigit d) eqn:Ed; [|intros []].
  intros [[= <- <-]|[]]. exists a, b, c, d. repeat split; assumption.
Qed.

Ltac read_two H :=
  let a := fresh "a" in
  let b := fresh "b" in
  let Ha := fresh "Ha" in
  let Hb := fresh "Hb" in
  apply two_inv in H as (a & b & -> & Ha & Hb & ->);
  left; exists a, b; repeat split;
  first [ eapply is_char_isdigit; [|eassumption]; reflexivity
        | eapply range_isdigit; [| |eassumption]; reflexivity
        | assumption ].

Ltac read_one H :=
  let a := fresh "a" in
  let Ha := fresh "Ha" in
  apply one_inv in H as (a & -> & Ha & ->);
  right; left; exists a; repeat split;
  first [ eapply range_isdigit; [| |eassumption]; reflexivity
        | assumption ].

Lemma directive_m_inv (s r : list N) (v : nat) :
  In (v, r) (directive_m s) -> read_field false s r v.
Proof.
  unfold directive_m. rewrite !in_app_iff.
  intros [H|[H|H]]; [read_two H|read_two H|read_one H].
Qed.

Lemma directive_d_inv (s r : list N) (v : nat) :
  In (v, r) (directive_d s) -> read_field true s r v.
Proof.
  unfold directive_d. rewrite !in_app_iff.
  intros [H|[H|[H|[H|H]]]];
    [read_two H|read_two H|read_two H|read_one H|].
  destruct s as [|c t]; [destruct H|].
  destruct (N.eqb_spec c (ch " ")) as [->|Hne]; [|destruct H].
  apply one_inv in H as (a & -> & _ & ->).
  right. right. split; [reflexivity|]. exists a. split; reflexivity.
Qed.

Lemma directive_H_inv (s r : list N) (v : nat) :
  In (v, r) (directive_H s) -> read_field false s r v.
Proof.
  unfold directive_H. rewrite !in_app_iff.
  intros [H|[H|H]]; [read_two H|read_two H|read_one H].
Qed.

Lemma literal_inv (x : ascii) (s r : list N) :
  In r (literal x s) ->
  exists c, s = c :: r /\ Str.lower_char c = Str.lower_char (ch x).
Proof.
  unfold literal. destruct s as [|c t]; [intros []|].
  destruct (N.eqb_spec (Str.lower_char c) (Str.lower_char (ch x))) as [E|_];
    [|intros []].
  intros [<-|[]]. exists c. split; [reflexivity|exact E].
Qed.

(** The date part of a match of the format. *)
Lemma format_matches_date (s r : list N) (dt : datetime) :
  In (dt, r) (format_matches s) ->
  exists s1 s2 s3 s4 s5 s6 s7 hour,
    In (dt_year dt, s1) (directive_Y s) /\ In s2 (literal "-" s1) /\
    In (dt_month dt, s3) (directive_m s2) /\ In s4 (literal "-" s3) /\
    In (dt_day dt, s5) (directive_d s4) /\ In s6 (literal "T" s5) /\
    In (hour, s7) (directive_H s6).
Proof.
  unfold format_matches. rewrite <- list_elem_of_In.
  intros H.
  apply list_elem_of_bind in H as ([Yv s1] & H & HY).
  apply list_elem_of_bind in H as (s2 & H & H1).
  apply list_elem_of_bind in H as ([mv s3] & H & Hm).
  apply list_elem_of_bind in H as (s4 & H & H2).
  apply list_elem_of_bind in H as ([dv s5] & H & Hd).
  apply list_elem_of_bind in H as (s6 & H & H3).
  apply list_elem_of_bind in H as ([Hv s7] & H & HH).
  apply list_elem_of_bind in H as (s8 & H & H4).
  apply list_elem_of_bind in H as ([Mv s9] & H & HM).
  apply list_elem_of_bind in H as (s10 & H & H5).
  apply list_elem_of_bind in H as ([Sv s11] & H & HS).
  apply list_elem_of_bind in H as (s12 & H & H6).
  apply list_elem_of_singleton in H. injection H as -> ->.
  apply list_elem_of_In in H1, H2, H3, HY, Hm, Hd, HH.
  exists s1, s2, s3, s4, s5, s6, s7, Hv. repeat split; assumption.
Qed.

Lemma strptime_In (s : list N) (dt : datetime) :
  strptime s = Some dt -> In (dt, []) (format_matches s).
Proof.
  unfold strptime. destruct (format_matches s) as [|[d [|c r]] l]; try discriminate.
  destruct (valid_datetime d); [|discriminate].
  intros [= <-]. left. reflexivity.
Qed.

(** Nothing is read from a text that begins with a character that is
    neither a digit nor a space. *)
Lemma read_field_head (allow_space : bool) (c : N) (t r : list N) (v : nat) :
  Str.isdigit c = false -> c <> ch " " ->
  ~ read_field allow_space (c :: t) r v.
Proof.
  intros Hd Hs [(a & b & [= <- _] & Ha & _)|[(a & [= <- _] & Ha & _)|(_ & a & [= E _] & _)]];
    [congruence|congruence|exact (Hs E)].
Qed.

(** How a published text written [YYYY-MM-DDT...] with the digits [0] to
    [9] is read, when it is accepted: the year, the month and the day are
    the numbers its digits write. *)
Lemma dated_text_read (y1 y2 y3 y4 m1 m2 d1 d2 : N) (time : list N)
    (dt : datetime) :
  strptime (dated_text y1 y2 y3 y4 m1 m2 d1 d2 time) = Some dt ->
  forallb ascii_digit [y1; y2; y3; y4; m1; m2; d1; d2] = true ->
  (dt_year dt = number_of [y1; y2; y3; y4] /\
   two_digits (dt_month dt) = [m1; m2] /\
   two_digits (dt_day dt) = [d1; d2]) /\
  dt_month dt = number_of [m1; m2].
Proof.
  intros H Hall. cbn [forallb] in Hall. rewrite !andb_true_iff in Hall.
  destruct Hall as (Hy1 & Hy2 & Hy3 & Hy4 & Hm1 & Hm2 & Hd1 & Hd2 & _).
  change (dated_text y1 y2 y3 y4 m1 m2 d1 d2 time)
    with (y1 :: y2 :: y3 :: y4 :: ch "-" :: m1 :: m2 :: ch "-" ::
          d1 :: d2 :: ch "T" :: time) in H.
  apply strptime_In, format_matches_date in H
    as (s1 & s2 & s3 & s4 & s5 & s6 & s7 & hour & HY & H1 & Hm & H2 & Hd & H3 & HH).
  apply directive_Y_inv in HY as (a & b & c & d & E & _ & _ & _ & _ & EY).
  injection E as <- <- <- <- <-.
  apply literal_inv in H1 as (x & [= <- <-] & _).
  apply directive_m_inv in Hm
    as [(a & b & [= <- <- <-] & _ & _ & EM)|[(a & [= <- <-] & _ & _)|[[=] _]]].
  2:{ apply literal_inv in H2 as (x & [= <- <-] & _).
      apply directive_d_inv, read_field_head in Hd;
        [destruct Hd|vm_compute; reflexivity|discriminate]. }
  apply literal_inv in H2 as (x & [= <- <-] & _).
  apply directive_d_inv in Hd
    as [(a & b & [= <- <- <-] & _ & _ & ED)|[(a & [= <- <-] & _ & _)|(_ & a & [= E _] & _)]].
  - rewrite EY, EM, ED, !two_digits_chars by assumption.
    unfold number_of. cbn [fold_left].
    rewrite !ascii_digit_value by assumption. repeat split; lia.
  - apply literal_inv in H3 as (x & [= <- <-] & _).
    apply directive_H_inv, read_field_head in HH;
      [destruct HH|vm_compute; reflexivity|discriminate].
  - subst d1. discriminate.
Qed.

(** ** Field lookup *)

(** Every lookup but the one of the summary returns a text. *)
Lemma safe_get_element_total (element : Element) (xpath default : list N) :
  Str.contains (lit "atom:summary") xpath = false ->
  exists s, safe_get_element element xpath default = Ok s.
Proof.
  intros Hx. unfold safe_get_element. rewrite Hx.
  destruct (find element xpath) as [[t a [x|] c]|]; simpl; eauto.
Qed.

(** The summary, when its element has a text, is the cleaned text. *)
Lemma safe_get_element_summary (element el : Element) (t default : list N) :
  find element (lit "atom:summary") = Some el -> text el = Some t ->
  safe_get_element element (lit "atom:summary") default = Ok (normalize_summary t).
Proof.
  intros Hf Ht. unfold safe_get_element.
  replace (Str.contains (lit "atom:summary") (lit "atom:summary")) with true by reflexivity.
  rewrite Hf. simpl. rewrite Ht. reflexivity.
Qed.

(** C2: on an entry whose summary element is present without text, the
    lookup of the summary raises [TypeError] instead of returning the
    default, and no record is extracted. *)
Theorem safe_get_element_empty_summary_raises :
  find empty_summary_entry (lit "atom:summary") = Some (Elem (atom (lit "summary")) [] None []) /\
  safe_get_element empty_summary_entry (lit "atom:summary") [] = Raise TypeError /\
  extract_paper_data empty_summary_entry = Raise TypeError.
Proof. repeat split; vm_compute; reflexivity. Qed.

(** ** The error convention of the catalog *)

Lemma find_entry_title (root : Element) :
  find root (lit "atom:entry/atom:title") =
  head (select (atom (lit "title")) (findall root (lit "atom:entry"))).
Proof.
  unfold find, findall.
  replace (split_on (ch "/") (lit "atom:entry/atom:title")) with [lit "atom:entry"; lit "atom:title"]
    by (vm_compute; reflexivity).
  replace (split_on (ch "/") (lit "atom:entry")) with [lit "atom:entry"] by (vm_compute; reflexivity).
  cbn [fold_left].
  replace (qualify (lit "atom:title")) with (atom (lit "title")) by (vm_compute; reflexivity).
  reflexivity.
Qed.


(** The error also carries the title without the white space around it. *)
Example error_feed_stripped :
  first_entry_title error_feed = Some (lit " Error ") /\
  parse_arxiv_xml error_feed format_to_ris =
    Raise (UpstreamError (api_error_prefix ++ lit "Error")).
Proof. split; vm_compute; reflexivity. Qed.


(** A title element without text makes the test itself fail. *)
Example textless_title_feed_raises :
  parse_arxiv_xml textless_title_feed format_to_ris = Raise TypeError.
Proof. vm_compute. reflexivity. Qed.

(** ** Blank lines of a document *)

Lemma count_blank_lines_cons2 (a b : N) (r : list N) :
  count_blank_lines ((a :: ((b :: r)))) =
  if is_nl a && is_nl b then S (count_blank_lines r)
  else count_blank_lines ((b :: r)).
Proof. reflexivity. Qed.

(** A tidy block in front of a separator adds the blank line of the
    separator and no other. *)
Lemma count_blank_lines_tidy_sep (block rest : list N) :
  tidy block ->
  count_blank_lines (block ++ separator ++ rest) = S (count_blank_lines rest).
Proof.
  unfold separator, nl.
  induction block as [|a block IH]; intros [Hc He]; [reflexivity|].
  destruct block as [|b block].
  - simpl in He. rewrite !append_cons, !append_nil_l.
    rewrite count_blank_lines_cons2, He. reflexivity.
  - rewrite count_blank_lines_cons2 in Hc.
    rewrite (append_cons a), (append_cons b), count_blank_lines_cons2.
    destruct (is_nl a && is_nl b); [discriminate|].
    rewrite <- append_cons. apply IH. split; [exact Hc|exact He].
Qed.

Lemma count_blank_lines_inside (a b : list N) :
  1 <= count_blank_lines (a ++ separator ++ b).
Proof.
  unfold separator, nl. induction a as [|x a IH]; [simpl; lia|].
  rewrite append_cons.
  destruct (a ++ ([10%N] ++ [10%N]) ++ b) as [|y t] eqn:E.
  - destruct a; discriminate.
  - rewrite count_blank_lines_cons2. destruct (is_nl x && is_nl y); [lia|exact IH].
Qed.

Lemma rstrip_nonspace_nl (a : list N) (c : N) :
  Str.isspace c = false -> Str.rstrip (a ++ (c :: nl)) = a ++ [c].
Proof.
  intros Hc. induction a as [|x a IH].
  - simpl. rewrite Hc. reflexivity.
  - rewrite !append_cons. simpl. rewrite IH.
    destruct a; reflexivity.
Qed.

(** Every block of the BibTeX renderer holds a blank line. *)
Lemma bibtex_block_blank_line (data : paper_data) :
  1 <= count_blank_lines (format_to_bibtex data).
Proof.
  unfold format_to_bibtex.
  match goal with
  | |- context [Str.strip (nl ++ lit "@article{" ++ ?k ++ lit "," ++ ?body ++ nl ++ lit "}" ++ nl)] =>
      set (key := k); set (b := body)
  end.
  assert (Hb : exists b', b = b' ++ nl).
  { subst b. eexists. rewrite <- !append_assoc. reflexivity. }
  destruct Hb as [b' ->].
  replace (Str.strip (nl ++ lit "@article{" ++ key ++ lit "," ++ (b' ++ nl) ++ nl ++ lit "}" ++ nl))
    with ((lit "@article{" ++ key ++ lit "," ++ b') ++ separator ++ lit "}").
  - apply count_blank_lines_inside.
  - unfold Str.strip.
    change (Str.lstrip (nl ++ lit "@article{" ++ key ++ lit "," ++ (b' ++ nl) ++ nl ++ lit "}" ++ nl))
      with (lit "@article{" ++ key ++ lit "," ++ (b' ++ nl) ++ nl ++ lit "}" ++ nl).
    replace (lit "@article{" ++ key ++ lit "," ++ (b' ++ nl) ++ nl ++ lit "}" ++ nl)
      with (((lit "@article{" ++ key ++ lit "," ++ b') ++ separator) ++ ((ch "}") :: nl))
      by (unfold separator; rewrite !append_assoc; reflexivity).
    rewrite rstrip_nonspace_nl by reflexivity.
    rewrite !append_assoc. reflexivity.
Qed.

(** C7 fails for the BibTeX renderer: a block has a blank line of its own
    in front of its closing brace, so a document of one record has one. *)
Lemma bibtex_block_has_blank_line :
  ~ blank_line_claim format_to_bibtex [sample_data].
Proof.
  unfold blank_line_claim. intros H. specialize (H (le_n 1)).
  vm_compute in H. discriminate.
Qed.

(** C7, amended: blocks without a blank line of their own that do not end
    in a newline, joined by the separator, make a document with one blank
    line less than there are blocks. *)
Theorem join_blank_lines (blocks : list (list N)) :
  Forall tidy blocks ->
  count_blank_lines (Str.join separator blocks) = length blocks - 1.
Proof.
  induction 1 as [|b l Hb Hl IH]; [reflexivity|].
  destruct l as [|b' l]; [apply Hb|].
  rewrite join_cons2, count_blank_lines_tidy_sep, IH by exact Hb.
  simpl. lia.
Qed.

(** The blocks of the RIS and of the EndNote renderer for the sample record
    are tidy, the BibTeX block is not. *)
Example sample_blocks_tidy :
  tidy (format_to_ris sample_data) /\ tidy (format_to_enw sample_data) /\
  count_blank_lines (format_to_bibtex sample_data) = 1.
Proof. repeat split; vm_compute; reflexivity. Qed.

Lemma join_blank_lines_witness :
  Forall tidy [format_to_ris sample_data; format_to_enw sample_data] /\
  count_blank_lines
    (Str.join separator [format_to_ris sample_data; format_to_enw sample_data]) =
  length [format_to_ris sample_data; format_to_enw sample_data] - 1.
Proof.
  assert (H : Forall tidy [format_to_ris sample_data; format_to_enw sample_data]).
  { repeat constructor; vm_compute; reflexivity. }
  split; [exact H|]. apply (join_blank_lines _ H).
Defined.

(** ** Blocks made of lines *)

Lemma count_blank_lines_skip (x : N) (s : list N) :
  is_nl x = false -> count_blank_lines ((x :: s)) = count_blank_lines s.
Proof. intros H. destruct s as [|y t]; [reflexivity|]. simpl. rewrite H. reflexivity. Qed.

Lemma ends_with_nl_append (a b : list N) :
  b <> [] -> ends_with_nl (a ++ b) = ends_with_nl b.
Proof.
  intros Hb. induction a as [|x a IH]; [reflexivity|].
  rewrite append_cons. simpl. rewrite IH.
  destruct (a ++ b) eqn:E; [|reflexivity].
  destruct a; [rewrite append_nil_l in E; congruence|discriminate].
Qed.

Lemma one_line_tidy (l : list N) : one_line l -> tidy l.
Proof.
  unfold one_line. induction l as [|x l IH]; [split; reflexivity|].
  simpl. intros [Hx Hl]%andb_true_iff. apply negb_true_iff in Hx.
  destruct (IH Hl) as [Hc He]. split.
  - rewrite count_blank_lines_skip by exact Hx. exact Hc.
  - destruct l; [exact Hx|exact He].
Qed.

(** A line, a newline and a tidy text that does not begin with a newline. *)
Lemma tidy_line_cons (l rest : list N) (y : N) :
  one_line l -> is_nl y = false -> tidy ((y :: rest)) ->
  tidy (l ++ nl ++ (y :: rest)).
Proof.
  intros Hl Hy [Hc He]. split.
  - unfold one_line in Hl. induction l as [|x l IH].
    + rewrite append_nil_l. unfold nl. rewrite append_cons, append_nil_l.
      rewrite count_blank_lines_cons2, Hy, andb_false_r. exact Hc.
    + simpl in Hl. apply andb_true_iff in Hl as [Hx Hl]. apply negb_true_iff in Hx.
      rewrite append_cons, count_blank_lines_skip by exact Hx. apply IH, Hl.
  - rewrite !ends_with_nl_append by discriminate. exact He.
Qed.

Lemma lines_tidy (lines : list (list N)) :
  Forall (fun l => l <> [] /\ one_line l) lines -> tidy (Str.join nl lines).
Proof.
  induction 1 as [|l lines [Hne Hl] Hlines IH]; [split; reflexivity|].
  destruct lines as [|l2 lines]; [apply one_line_tidy, Hl|].
  rewrite join_cons2.
  assert (Hhead : exists y rest, Str.join nl (l2 :: lines) = (y :: rest) /\ is_nl y = false).
  { inversion Hlines as [|? ? [Hne2 Hl2] _]; subst.
    destruct l2 as [|y l2]; [congruence|].
    unfold one_line in Hl2. simpl in Hl2. apply andb_true_iff in Hl2 as [Hy _].
    apply negb_true_iff in Hy.
    destruct lines; [exists y, l2; split; [reflexivity|exact Hy]|].
    rewrite join_cons2, append_cons. eauto. }
  destruct Hhead as (y & rest & E & Hy). rewrite E in *.
  apply tidy_line_cons; assumption.
Qed.

Lemma one_line_append (a b : list N) : one_line a -> one_line b -> one_line (a ++ b).
Proof. unfold one_line. intros Ha Hb. rewrite all_append, Ha, Hb. reflexivity. Qed.

Lemma tagged_line (tag_ body : list N) :
  tag_ <> [] -> one_line tag_ -> one_line body ->
  tag_ ++ body <> [] /\ one_line (tag_ ++ body).
Proof.
  intros Hne Ht Hb. split; [apply append_nonempty_l, Hne|apply one_line_append; assumption].
Qed.

Ltac tagged := apply tagged_line; [discriminate|reflexivity|assumption].

Ltac lines_split :=
  repeat first
    [ apply Forall_nil_2
    | apply Forall_cons_2; [first [tagged | split; [discriminate|reflexivity]]|]
    | apply Forall_app_2
    | match goal with
      | |- Forall _ (when ?c _) => destruct c; cbn [when]
      end ].

Lemma author_lines (tag_ : list N) (names : list (list N)) :
  tag_ <> [] -> one_line tag_ -> Forall one_line names ->
  Forall (fun l => l <> [] /\ one_line l)
         (List.map (fun author_name => tag_ ++ author_name) names).
Proof.
  intros Hne Ht Hn. induction Hn as [|a names Ha Hn IH]; [constructor|].
  simpl. constructor; [apply tagged_line; assumption|exact IH].
Qed.

(** The blocks of the RIS and of the EndNote renderer are tidy when the
    fields of the record hold no newline. *)
Lemma format_to_ris_tidy (data : paper_data) :
  one_line_record data -> tidy (format_to_ris data).
Proof.
  intros (Ht & Hs & Hd & Hi & Hu & Ha & Hy & Hsd & Hp & He).
  unfold format_to_ris. apply lines_tidy.
  lines_split; try (apply author_lines; [discriminate|reflexivity|assumption]).
Qed.

Lemma format_to_enw_tidy (data : paper_data) :
  one_line_record data -> tidy (format_to_enw data).
Proof.
  intros (Ht & Hs & Hd & Hi & Hu & Ha & Hy & Hsd & Hp & He).
  unfold format_to_enw. apply lines_tidy.
  lines_split; try (apply author_lines; [discriminate|reflexivity|assumption]).
Qed.

(** Documents of the RIS and of the EndNote renderer: one blank line less
    than there are records. *)
Lemma ris_enw_blank_lines (records : list paper_data) :
  Forall one_line_record records ->
  count_blank_lines (Str.join separator (List.map format_to_ris records))
    = length records - 1 /\
  count_blank_lines (Str.join separator (List.map format_to_enw records))
    = length records - 1.
Proof.
  intros H.
  assert (Hc : forall f, (forall d, one_line_record d -> tidy (f d)) ->
            count_blank_lines (Str.join separator (List.map f records))
            = length records - 1).
  { intros f Hf. induction H as [|d l Hd Hl IH]; [reflexivity|].
    destruct l as [|d' l]; [apply Hf, Hd|].
    cbn [List.map] in *. rewrite join_cons2, count_blank_lines_tidy_sep, IH by auto.
    simpl. lia. }
  split; apply Hc; [apply format_to_ris_tidy|apply format_to_enw_tidy].
Qed.

(** ** The identifier *)

Lemma take_digits_spec (n : nat) (s ds rest : list N) :
  take_digits n s = Some (ds, rest) -> s = ds ++ rest /\ digits n ds.
Proof.
  revert s ds. induction n as [|n IH]; intros s ds; simpl.
  - intros [= <- <-]. repeat split.
  - destruct s as [|c r]; [discriminate|].
    destruct (Str.isdigit c) eqn:Ec; [|discriminate].
    destruct (take_digits n r) as [[ds' rest']|] eqn:E; [|discriminate].
    intros [= <- <-]. destruct (IH _ _ E) as (-> & Hl & Ha).
    rewrite append_cons. repeat split; simpl; [congruence|].
    rewrite Ec, Ha. reflexivity.
Qed.

Lemma take_digits_complete (n : nat) (a r : list N) :
  digits n a -> take_digits n (a ++ r) = Some (a, r).
Proof.
  revert a. induction n as [|n IH]; intros a [Hl Ha].
  - destruct a; [reflexivity|discriminate].
  - destruct a as [|c a]; [discriminate|].
    simpl in Hl, Ha. apply andb_true_iff in Ha as [Hc Ha].
    rewrite append_cons. simpl. rewrite Hc, IH; [reflexivity|].
    split; [congruence|exact Ha].
Qed.

Lemma span_digits_spec (s ds rest : list N) :
  span_digits s = (ds, rest) -> s = ds ++ rest /\ Str.all Str.isdigit ds = true.
Proof.
  revert ds. induction s as [|c r IH]; intros ds; simpl.
  - intros [= <- <-]. split; reflexivity.
  - destruct (Str.isdigit c) eqn:Ec.
    + destruct (span_digits r) as [ds' rest'].
      intros [= <- <-]. destruct (IH _ eq_refl) as [-> Ha].
      rewrite append_cons. split; [reflexivity|]. simpl. rewrite Ec, Ha. reflexivity.
    + intros [= <- <-]. split; reflexivity.
Qed.

Lemma match_base_spec (s base rest : list N) :
  match_base s = Some (base, rest) ->
  s = base ++ rest /\
  exists a b, digits 4 a /\ digits 5 b /\ base = a ++ lit "." ++ b.
Proof.
  unfold match_base.
  destruct (take_digits 4 s) as [[a t]|] eqn:Ea; [|discriminate].
  destruct t as [|c t]; [discriminate|].
  destruct (N.eqb_spec c (ch ".")) as [->|Hne]; [|discriminate].
  destruct (take_digits 5 t) as [[b t']|] eqn:Eb; [|discriminate].
  intros [= <- <-].
  destruct (take_digits_spec _ _ _ _ Ea) as [-> Ha].
  destruct (take_digits_spec _ _ _ _ Eb) as [-> Hb].
  split; [|eauto 6].
  rewrite !append_assoc. reflexivity.
Qed.

Lemma match_base_complete (a b rest : list N) :
  digits 4 a -> digits 5 b ->
  match_base (a ++ lit "." ++ b ++ rest) = Some (a ++ lit "." ++ b, rest).
Proof.
  intros Ha Hb. unfold match_base.
  rewrite (take_digits_complete 4 a) by exact Ha.
  change (lit "." ++ b ++ rest) with (ch "." :: b ++ rest).
  cbv iota beta. rewrite N.eqb_refl.
  rewrite (take_digits_complete 5 b) by exact Hb. reflexivity.
Qed.

Lemma match_arxiv_id_spec (s m : list N) :
  match_arxiv_id s = Some m -> id_shape m /\ exists post, s = m ++ post.
Proof.
  unfold match_arxiv_id.
  destruct (match_base s) as [[base rest]|] eqn:E; [|discriminate].
  destruct (match_base_spec _ _ _ E) as (-> & a & b & Ha & Hb & ->).
  assert (Hbase : id_shape (a ++ lit "." ++ b)) by (exists a, b; auto).
  assert (Hplain : forall x, Some (a ++ lit "." ++ b) = Some x ->
            id_shape x /\ exists post, (a ++ lit "." ++ b) ++ rest = x ++ post).
  { intros x [= <-]. split; [exact Hbase|eauto]. }
  destruct rest as [|c rest]; [apply Hplain|].
  destruct (N.eqb_spec c (ch "v")) as [->|Hne]; [|apply Hplain].
  destruct (span_digits rest) as [[|d ds] rest'] eqn:Es; [apply Hplain|].
  destruct (span_digits_spec _ _ _ Es) as [-> Hk].
  intros [= <-]. split.
  - exists a, b. repeat split; try apply Ha; try apply Hb.
    right. exists ((d :: ds)). repeat split; [discriminate|exact Hk|].
    rewrite !append_assoc. reflexivity.
  - exists rest'. rewrite !append_assoc. reflexivity.
Qed.

Lemma match_arxiv_id_complete (m post : list N) :
  id_shape m -> is_Some (match_arxiv_id (m ++ post)).
Proof.
  intros (a & b & Ha & Hb & Hm).
  assert (E : exists rest, m ++ post = a ++ lit "." ++ b ++ rest).
  { destruct Hm as [->|(k & _ & _ & ->)]; rewrite !append_assoc; eauto. }
  destruct E as [rest ->]. unfold match_arxiv_id.
  rewrite match_base_complete by assumption.
  destruct rest as [|c rest]; [eauto|].
  destruct (N.eqb c (ch "v")); eauto.
  destruct (span_digits rest) as [[|d ds] rest']; eauto.
Qed.

Lemma search_arxiv_id_spec (s m : list N) :
  search_arxiv_id s = Some m -> id_shape m /\ exists pre post, s = pre ++ m ++ post.
Proof.
  induction s as [|c s IH]; simpl.
  - discriminate.
  - destruct (match_arxiv_id ((c :: s))) as [x|] eqn:E.
    + intros [= ->]. destruct (match_arxiv_id_spec _ _ E) as [Hs [post ->]].
      split; [exact Hs|]. exists [], post. reflexivity.
    + intros H. destruct (IH H) as [Hs (pre & post & ->)].
      split; [exact Hs|]. exists ((c :: pre)), post. reflexivity.
Qed.

Lemma search_arxiv_id_complete (pre m post : list N) :
  id_shape m -> is_Some (search_arxiv_id (pre ++ m ++ post)).
Proof.
  intros Hm. induction pre as [|c pre IH].
  - rewrite append_nil_l.
    destruct (match_arxiv_id_complete m post Hm) as [x Hx].
    remember (m ++ post) as s eqn:Es. clear Es.
    destruct s; [discriminate|]. simpl. rewrite Hx. eauto.
  - rewrite append_cons. simpl.
    destruct (match_arxiv_id ((c :: (pre ++ m ++ post)))); [eauto|exact IH].
Qed.

Lemma search_arxiv_id_head (s m : list N) :
  match_arxiv_id s = Some m -> search_arxiv_id s = Some m.
Proof. intros H. destruct s; [discriminate|]. simpl. rewrite H. reflexivity. Qed.

Lemma search_arxiv_id_skip (pre s : list N) :
  Str.all (fun c => negb (Str.isdigit c)) pre = true ->
  search_arxiv_id (pre ++ s) = search_arxiv_id s.
Proof.
  induction pre as [|c pre IH]; [reflexivity|].
  simpl. intros [Hc Hpre]%andb_true_iff. apply negb_true_iff in Hc.
  unfold match_arxiv_id, match_base. simpl. rewrite Hc. apply IH, Hpre.
Qed.

Lemma span_digits_none (s : list N) :
  starts_with_digit s = false -> span_digits s = ([], s).
Proof.
  destruct s as [|c s]; [reflexivity|]. simpl. intros ->. reflexivity.
Qed.

Lemma search_arxiv_id_example (pre post : list N) :
  Str.all (fun c => negb (Str.isdigit c)) pre = true ->
  starts_with_digit post = false ->
  search_arxiv_id (pre ++ lit "2310.12345v2" ++ post) = Some (lit "2310.12345v2").
Proof.
  intros Hpre Hpost. rewrite search_arxiv_id_skip by exact Hpre.
  apply search_arxiv_id_head.
  change (lit "2310.12345v2" ++ post)
    with (lit "2310" ++ lit "." ++ lit "12345" ++ ((ch "v") :: (((ch "2") :: post)))).
  unfold match_arxiv_id. rewrite match_base_complete by (split; reflexivity).
  simpl span_digits. rewrite (span_digits_none post Hpost). reflexivity.
Qed.

Lemma extract_identifier (entry : Element) (data : paper_data) (u : list N) :
  extract_paper_data entry = Ok data ->
  safe_get_element entry (lit "atom:id") [] = Ok u ->
  (arxiv_id data, arxiv_url data) = identifier_of u.
Proof.
  intros H Hu. unfold extract_paper_data in H.
  do 2 bind_inv H. rewrite Hu in Hv0. injection Hv0 as <-.
  do 3 bind_inv H.
  destruct (identifier_of u) as [i l].
  bind_inv H.
  match type of H with
  | context [date_fields ?x] => destruct (date_fields x) as [[[y sd] rd] ed]
  end.
  injection H as <-. reflexivity.
Qed.

Lemma span_digits_app (k post : list N) :
  Str.all Str.isdigit k = true ->
  span_digits (k ++ post) = (k ++ fst (span_digits post), snd (span_digits post)).
Proof.
  induction k as [|c k IH]; [intros _; simpl; destruct (span_digits post); reflexivity|].
  simpl. intros [Hc Hk]%andb_true_iff. rewrite Hc, (IH Hk). reflexivity.
Qed.

(** The match at the head of a text is the longest piece of the shape
    there. *)
Lemma match_arxiv_id_longest (s m m' post' : list N) :
  match_arxiv_id s = Some m -> s = m' ++ post' -> id_shape m' ->
  length m' <= length m.
Proof.
  intros Hm -> (a & b & Ha & Hb & Hs). revert Hm. unfold match_arxiv_id.
  destruct Hs as [->|(k & Hk & Hd & ->)].
  - rewrite <- !app_assoc. rewrite match_base_complete by assumption.
    rewrite !app_assoc.
    destruct post' as [|c r]; [intros [= <-]; lia|].
    destruct (N.eqb c (ch "v")); [|intros [= <-]; lia].
    destruct (span_digits r) as [[|d ds] r']; intros [= <-]; [lia|].
    rewrite !length_app. lia.
  - rewrite <- !app_assoc. rewrite match_base_complete by assumption.
    change (lit "v" ++ k ++ post') with (ch "v" :: k ++ post').
    cbv iota beta. rewrite N.eqb_refl, span_digits_app by exact Hd.
    destruct k as [|d k]; [congruence|].
    rewrite <- app_comm_cons. intros [= <-].
    rewrite !length_app. cbn [length]. rewrite !length_app.
    change (length (lit ".")) with 1. change (length (lit "v")) with 1. lia.
Qed.

(** The search returns the match at the first position that has one. *)
Lemma search_arxiv_id_leftmost (s m : list N) :
  search_arxiv_id s = Some m ->
  exists pre post,
    s = pre ++ m ++ post /\ match_arxiv_id (m ++ post) = Some m /\
    forall pre' rest', s = pre' ++ rest' -> length pre' < length pre ->
                       match_arxiv_id rest' = None.
Proof.
  induction s as [|c s IH]; simpl.
  - discriminate.
  - destruct (match_arxiv_id (c :: s)) as [x|] eqn:E.
    + intros [= ->]. destruct (match_arxiv_id_spec _ _ E) as [_ [post Hpost]].
      exists [], post. rewrite <- Hpost.
      split; [reflexivity|]. split; [exact E|]. intros pre' rest' _ Hl. simpl in Hl. lia.
    + intros H. destruct (IH H) as (pre & post & -> & Hm & Hleft).
      exists (c :: pre), post. split; [reflexivity|]. split; [exact Hm|].
      intros [|c' pre'] rest' Heq Hl.
      * simpl in Heq. subst rest'. exact E.
      * injection Heq as <- Heq. apply (Hleft pre' rest' Heq). simpl in Hl. lia.
Qed.

Lemma search_arxiv_id_skip_none (pre s : list N) :
  (forall pre1 pre2, pre = pre1 ++ pre2 -> pre2 <> [] ->
                     match_arxiv_id (pre2 ++ s) = None) ->
  search_arxiv_id (pre ++ s) = search_arxiv_id s.
Proof.
  induction pre as [|c pre IH]; intros H; [reflexivity|].
  rewrite <- app_comm_cons. simpl.
  rewrite app_comm_cons, (H [] (c :: pre)) by (reflexivity || discriminate).
  apply IH. intros pre1 pre2 -> Hne. apply (H (c :: pre1) pre2); [reflexivity|exact Hne].
Qed.

Lemma match_arxiv_id_example (post : list N) :
  starts_with_digit post = false ->
  match_arxiv_id (lit "2310.12345v2" ++ post) = Some (lit "2310.12345v2").
Proof.
  intros Hpost.
  change (lit "2310.12345v2" ++ post)
    with (lit "2310" ++ lit "." ++ lit "12345" ++ (ch "v" :: ch "2" :: post)).
  unfold match_arxiv_id. rewrite match_base_complete by (split; reflexivity).
  simpl span_digits. rewrite (span_digits_none post Hpost). reflexivity.
Qed.

(** A text without digits holds the beginning of no piece of the shape. *)
Lemma digitless_prefix (pre rest pre' m' post' : list N) :
  Str.all (fun c => negb (Str.isdigit c)) pre = true ->
  pre ++ rest = pre' ++ m' ++ post' -> id_shape m' ->
  length pre <= length pre'.
Proof.
  intros Hpre Heq (a & b & [Hla Ha] & _ & Hm).
  destruct a as [|d a]; [discriminate|].
  assert (Hd : Str.isdigit d = true)
    by (simpl in Ha; apply andb_true_iff in Ha as [Ha _]; exact Ha).
  assert (E : exists t, m' = d :: t).
  { destruct Hm as [->|(k & _ & _ & ->)]; eexists; reflexivity. }
  destruct E as [t ->]. clear Hm.
  revert pre' Heq. induction pre as [|c pre IH]; intros pre' Heq; [simpl; lia|].
  simpl in Hpre. apply andb_true_iff in Hpre as [Hc Hpre].
  destruct pre' as [|c' pre'].
  - simpl in Heq. injection Heq as -> _. rewrite Hd in Hc. discriminate.
  - injection Heq as _ Heq. simpl. apply le_n_S, (IH Hpre pre' Heq).
Qed.

(** C9 fails on an id text that holds [2310.12345v2] followed by a digit:
    the version takes every digit that follows. *)
Lemma longer_version_identifier :
  ~ id_example_claim longer_version_entry.
Proof.
  intros H.
  destruct (H (mkpaper_data [] [] [] (lit "2310.12345v23")
                 (lit "https://arxiv.org/abs/2310.12345v23") [] [] [] []
                 (Some []) [])
              (lit "http://arxiv.org/abs/2310.12345v23")) as [Hid _];
    [vm_compute; reflexivity ..|].
  vm_compute in Hid. discriminate.
Qed.

(** C9, amended: the identifier of a record is the piece of the id text
    made of four digits, a dot and five digits, with [v] and a version
    number or without, that begins first, and the longest such piece that
    begins there; it is [unknown] when the id text has no such piece; the
    URL is the fixed prefix followed by the identifier.  An id text that
    holds [2310.12345v2] with no such piece beginning before it and no
    digit just after it gives that identifier and its URL. *)
Theorem paper_id_extraction (entry : Element) (data : paper_data) (u : list N) :
  extract_paper_data entry = Ok data ->
  safe_get_element entry (lit "atom:id") [] = Ok u ->
  arxiv_url data = lit "https://arxiv.org/abs/" ++ arxiv_id data /\
  ((exists pre post,
      u = pre ++ arxiv_id data ++ post /\ id_shape (arxiv_id data) /\
      forall pre' m' post',
        u = pre' ++ m' ++ post' -> id_shape m' ->
        length pre <= length pre' /\
        (length pre' = length pre -> length m' <= length (arxiv_id data)))
   \/
   (arxiv_id data = lit "unknown" /\
    forall pre m post, u = pre ++ m ++ post -> ~ id_shape m)) /\
  (forall pre post,
     u = pre ++ lit "2310.12345v2" ++ post ->
     (forall pre' m' post',
        u = pre' ++ m' ++ post' -> id_shape m' -> length pre <= length pre') ->
     starts_with_digit post = false ->
     arxiv_id data = lit "2310.12345v2" /\
     arxiv_url data = lit "https://arxiv.org/abs/2310.12345v2").
Proof.
  intros H Hu. pose proof (extract_identifier _ _ _ H Hu) as E.
  unfold identifier_of in E. injection E as Hid Hurl.
  split; [rewrite Hurl, Hid; reflexivity|]. split.
  - destruct (search_arxiv_id u) as [m|] eqn:Es; simpl in Hid.
    + left. rewrite Hid.
      destruct (search_arxiv_id_spec _ _ Es) as [Hshape _].
      destruct (search_arxiv_id_leftmost _ _ Es) as (pre & post & -> & Hm & Hleft).
      exists pre, post. split; [reflexivity|]. split; [exact Hshape|].
      intros pre' m' post' Heq Hm'.
      assert (Hle : length pre <= length pre').
      { destruct (Nat.le_gt_cases (length pre) (length pre')) as [Hle|Hlt]; [exact Hle|].
        pose proof (Hleft pre' (m' ++ post') Heq Hlt) as Hnone.
        destruct (match_arxiv_id_complete m' post' Hm') as [x Hx]. congruence. }
      split; [exact Hle|]. intros Hlen.
      apply app_inj_1 in Heq as [_ Heq]; [|congruence].
      apply (match_arxiv_id_longest _ _ _ _ Hm Heq Hm').
    + right. split; [exact Hid|]. intros pre m post -> Hm.
      destruct (search_arxiv_id_complete pre m post Hm) as [x Hx]. congruence.
  - intros pre post -> Hfirst Hpost.
    assert (Es : search_arxiv_id (pre ++ lit "2310.12345v2" ++ post) =
                 Some (lit "2310.12345v2")).
    { rewrite search_arxiv_id_skip_none.
      - apply search_arxiv_id_head, match_arxiv_id_example, Hpost.
      - intros pre1 pre2 -> Hne.
        destruct (match_arxiv_id (pre2 ++ lit "2310.12345v2" ++ post)) as [m|] eqn:Em;
          [|reflexivity].
        destruct (match_arxiv_id_spec _ _ Em) as [Hm [post2 Hpost2]].
        assert (Hle : length (pre1 ++ pre2) <= length pre1).
        { apply (Hfirst pre1 m post2); [|exact Hm].
          rewrite <- Hpost2, <- app_assoc. reflexivity. }
        rewrite length_app in Hle. destruct pre2; [congruence|simpl in Hle; lia]. }
    rewrite Es in Hid, Hurl. split; [exact Hid|exact Hurl].
Qed.

Lemma paper_id_extraction_witness :
  arxiv_url sample_data = lit "https://arxiv.org/abs/" ++ arxiv_id sample_data /\
  arxiv_id sample_data = lit "2310.12345v2" /\
  arxiv_url sample_data = lit "https://arxiv.org/abs/2310.12345v2".
Proof.
  assert (H : extract_paper_data sample_entry = Ok sample_data)
    by (vm_compute; reflexivity).
  assert (Hu : safe_get_element sample_entry (lit "atom:id") [] =
               Ok (lit "http://arxiv.org/abs/2310.12345v2"))
    by (vm_compute; reflexivity).
  destruct (paper_id_extraction sample_entry sample_data _ H Hu) as (Hurl & _ & Hex).
  split; [exact Hurl|].
  apply (Hex (lit "http://arxiv.org/abs/") []); [reflexivity| |reflexivity].
  intros pre' m' post'.
  apply (digitless_prefix (lit "http://arxiv.org/abs/") (lit "2310.12345v2")).
  vm_compute. reflexivity.
Defined.
(** ** Query building *)

Lemma to_uint_nonnil (n : nat) : Nat.to_uint n <> Decimal.Nil.
Proof.
  rewrite <- (DecimalNat.Unsigned.of_to n) at 1.
  rewrite DecimalNat.Unsigned.to_of.
  unfold Decimal.unorm. destruct (Decimal.nzhead (Nat.to_uint n)); discriminate.
Qed.

Lemma lit_inj (s s' : string) : lit s = lit s' -> s = s'.
Proof.
  revert s'. induction s as [|a s IH]; intros [|b s'] H; try discriminate; [reflexivity|].
  change (N_of_ascii a :: lit s = N_of_ascii b :: lit s') in H.
  injection H as Hab H. apply (f_equal ascii_of_N) in Hab.
  rewrite !ascii_N_embedding in Hab. rewrite Hab, (IH _ H). reflexivity.
Qed.

Lemma of_nat_inj (i j : nat) : Str.of_nat i = Str.of_nat j -> i = j.
Proof.
  unfold Str.of_nat. intros H%lit_inj. apply DecimalNat.Unsigned.to_uint_inj.
  pose proof (NilZero.usu _ (to_uint_nonnil i)) as Hi.
  pose proof (NilZero.usu _ (to_uint_nonnil j)) as Hj.
  rewrite H in Hi. congruence.
Qed.

Lemma term_key_inj : Inj (=) (=) term_key.
Proof.
  intros i j H. unfold term_key in H.
  apply app_inv_head, app_inv_tail in H. apply of_nat_inj, H.
Qed.

(** As many keys [terms-i-term] as the dictionary holds entries, at most. *)
Lemma term_keys_le_size (query_params : gmap (list N) (list (list N))) (n : nat) :
  (forall i, i < n -> is_Some (query_params !! term_key i)) ->
  n <= size query_params.
Proof.
  intros Hp.
  assert (Hsub : list_to_set (C := gset (list N)) (term_key <$> seq 0 n) ⊆ dom query_params).
  { intros k [i [-> Hi%elem_of_seq]]%elem_of_list_to_set%list_elem_of_fmap.
    apply elem_of_dom, Hp. lia. }
  apply subseteq_size in Hsub.
  rewrite size_list_to_set in Hsub
    by (apply (@NoDup_fmap_2 _ _ term_key term_key_inj), NoDup_seq).
  rewrite length_fmap, length_seq, size_dom in Hsub. exact Hsub.
Qed.

Lemma join_nonempty (sep x : list N) (parts : list (list N)) :
  In x parts -> x <> [] -> Str.join sep parts <> [].
Proof.
  intros Hin Hx. induction parts as [|y l IH]; [destruct Hin|].
  destruct l as [|z l]; [destruct Hin as [->|[]]; exact Hx|].
  rewrite join_cons2. destruct Hin as [->|Hin].
  - apply append_nonempty_l, Hx.
  - apply append_nonempty_r, append_nonempty_r, IH, Hin.
Qed.

Lemma nonempty_true (s : list N) : s <> [] -> Str.nonempty s = true.
Proof. destruct s; [congruence|reflexivity]. Qed.


(** The dictionary of [parse_qs] holds, under each name, the values of
    the pairs with that name, in their order. *)
Lemma fold_append_value_lookup (pairs : list (list N * list N))
    (m : gmap (list N) (list (list N))) (k : list N) :
  fold_left append_value pairs m !! k =
  match m !! k, List.map snd (List.filter (fun p => str_eqb (fst p) k) pairs) with
  | None, [] => None
  | None, values => Some values
  | Some old, values => Some (old ++ values)
  end.
Proof.
  revert m. induction pairs as [|[n v] pairs IH]; intros m.
  - simpl. destruct (m !! k); [rewrite app_nil_r|]; reflexivity.
  - cbn [fold_left List.filter fst]. rewrite IH. unfold append_value.
    destruct (str_eqb n k) eqn:E.
    + apply str_eqb_eq in E. subst n. cbn [List.map snd].
      destruct (m !! k) as [old|]; rewrite lookup_insert_eq.
      * rewrite <- app_assoc. reflexivity.
      * reflexivity.
    + assert (Hne : n <> k) by (intros ->; rewrite str_eqb_refl in E; discriminate).
      destruct (m !! n) as [old|]; rewrite lookup_insert_ne by exact Hne; reflexivity.
Qed.

Lemma parse_qsl_raw_pairs (qs : list N) :
  parse_qsl qs =
  List.map (fun p => (url_decode (fst p), url_decode (snd p))) (raw_pairs qs).
Proof.
  unfold parse_qsl, raw_pairs.
  induction (split_on (ch "&") qs) as [|name_value l IH]; [reflexivity|].
  cbn [flat_map]. rewrite List.map_app, IH.
  destruct (split_pair name_value) as [[n [|c v]]|]; reflexivity.
Qed.

Lemma decoded_values (l : list (list N * list N)) (name : list N) :
  List.map snd
    (List.filter (fun p => str_eqb (fst p) name)
       (List.map (fun p => (url_decode (fst p), url_decode (snd p))) l)) =
  List.map url_decode
    (List.map snd (List.filter (fun p => str_eqb (url_decode (fst p)) name) l)).
Proof.
  induction l as [|[n v] l IH]; [reflexivity|].
  cbn [List.map List.filter fst snd].
  destruct (str_eqb (url_decode n) name); [|exact IH].
  cbn [List.map snd]. rewrite IH. reflexivity.
Qed.

Lemma parse_qs_lookup (qs name : list N) :
  parse_qs qs !! name =
  match raw_values qs name with
  | [] => None
  | values => Some (List.map url_decode values)
  end.
Proof.
  unfold parse_qs, raw_values.
  rewrite fold_append_value_lookup, lookup_empty, parse_qsl_raw_pairs, decoded_values.
  destruct (List.map snd _); reflexivity.
Qed.

(** [parse_qs] keeps no name without a value. *)
Lemma parse_qs_values_nonempty (qs name : list N) :
  parse_qs qs !! name <> Some [].
Proof.
  rewrite parse_qs_lookup. destruct (raw_values qs name); discriminate.
Qed.

Section QueryBuilderProperties.

Variable url_query : list N -> list N.
Variable upper : list N -> list N.

(** One turn of the loop appends the parts of its index. *)
Lemma advanced_loop_step (qs : list N) (fuel i : nat) (parts : list (list N)) :
  raw_values qs (term_key i) <> [] ->
  advanced_loop upper (parse_qs qs) (S fuel) i parts =
  advanced_loop upper (parse_qs qs) fuel (S i)
    (parts ++ clause_parts decoded_twice upper qs i).
Proof.
  intros Ht. unfold clause_parts, decoded_twice. cbn [advanced_loop].
  rewrite !parse_qs_lookup.
  destruct (raw_values qs (term_key i)) as [|term0 tl]; [congruence|].
  cbn [List.map].
  destruct (raw_values qs (field_key i)) as [|field0 fl];
    [rewrite app_nil_r; reflexivity|].
  cbn [List.map].
  destruct (raw_values qs (operator_key i)) as [|operator0 ol]; [reflexivity|].
  cbn [List.map].
  destruct (0 <? i)%nat; [|reflexivity].
  rewrite <- app_assoc. reflexivity.
Qed.

(** With the first missing term at index [n], the loop started at [i]
    with fuel for the indices left and the [break] returns the parts of
    the indices from [i] to [n - 1]. *)
Lemma advanced_loop_spec (qs : list N) (n : nat) :
  raw_values qs (term_key n) = [] ->
  forall k fuel i parts,
    i + k = n ->
    (forall j, i <= j < n -> raw_values qs (term_key j) <> []) ->
    k < fuel ->
    advanced_loop upper (parse_qs qs) fuel i parts =
    Some (parts ++ flat_map (clause_parts decoded_twice upper qs) (seq i k)).
Proof.
  intros Hn. induction k as [|k IH]; intros fuel i parts Hik Hp Hf.
  - destruct fuel as [|fuel]; [lia|].
    replace i with n by lia. cbn [advanced_loop].
    rewrite parse_qs_lookup, Hn, app_nil_r. reflexivity.
  - destruct fuel as [|fuel]; [lia|].
    rewrite advanced_loop_step by (apply Hp; lia).
    rewrite (IH fuel (S i)); [|lia|intros j Hj; apply Hp; lia|lia].
    simpl. rewrite app_assoc. reflexivity.
Qed.

(** The parts are none at all, or one of them is a clause. *)
Lemma clause_parts_nonempty (term_text : list N -> list N) (qs : list N)
    (l : list nat) :
  flat_map (clause_parts term_text upper qs) l = [] \/
  exists x, In x (flat_map (clause_parts term_text upper qs) l) /\ x <> [].
Proof.
  induction l as [|i l IH]; [left; reflexivity|].
  cbn [flat_map]. unfold clause_parts at 1 3.
  destruct (raw_values qs (term_key i)) as [|term0 tl]; [exact IH|].
  destruct (raw_values qs (field_key i)) as [|field0 fl]; [exact IH|].
  right. eexists. split; [|shelve].
  apply in_or_app. left. apply in_or_app. right. left. reflexivity.
  Unshelve. discriminate.
Qed.

Lemma raw_values_is_Some (qs name : list N) :
  raw_values qs name <> [] -> is_Some (parse_qs qs !! name).
Proof.
  intros H. rewrite parse_qs_lookup. destruct (raw_values qs name); [congruence|eauto].
Qed.

(** As many written terms as the dictionary holds entries, at most. *)
Lemma raw_terms_le_size (qs : list N) (n : nat) :
  (forall i, i < n -> raw_values qs (term_key i) <> []) ->
  n <= size (parse_qs qs).
Proof.
  intros Hp. apply term_keys_le_size.
  intros i Hi. apply raw_values_is_Some, Hp, Hi.
Qed.

(** Some term is the first one missing. *)
Lemma first_missing_term (qs : list N) :
  exists n,
    (forall i, i < n -> raw_values qs (term_key i) <> []) /\
    raw_values qs (term_key n) = [].
Proof.
  assert (H : forall k,
             (exists n, (forall i, i < n -> raw_values qs (term_key i) <> []) /\
                        raw_values qs (term_key n) = []) \/
             (forall i, i < k -> raw_values qs (term_key i) <> [])).
  { induction k as [|k [IH|IH]]; [right; intros i Hi; lia|left; exact IH|].
    destruct (raw_values qs (term_key k)) as [|v l] eqn:E; [left; eauto|right].
    intros i Hi. destruct (decide (i = k)) as [->|Hne]; [rewrite E; discriminate|apply IH; lia]. }
  destruct (H (S (size (parse_qs qs)))) as [Hn|Hall]; [exact Hn|].
  apply raw_terms_le_size in Hall. lia.
Qed.

(** The advanced query of a URL, [n] being the first index without a
    written term. *)
Lemma parse_advanced_search_url_parts (url : list N) (n : nat) :
  (forall i, i < n -> raw_values (url_query url) (term_key i) <> []) ->
  raw_values (url_query url) (term_key n) = [] ->
  parse_advanced_search_url url_query upper url =
  Some (query_of_parts decoded_twice upper (url_query url) n).
Proof.
  intros Hp Hn. unfold parse_advanced_search_url, query_params_of, query_of_parts.
  rewrite (advanced_loop_spec (url_query url) n Hn n); cycle 1.
  - reflexivity.
  - intros j Hj. apply Hp. lia.
  - pose proof (raw_terms_le_size (url_query url) n Hp). lia.
  - rewrite app_nil_l.
    destruct (clause_parts_nonempty decoded_twice (url_query url) (seq 0 n))
      as [->|(x & Hin & Hx)]; [reflexivity|].
    rewrite (nonempty_true _ (join_nonempty (lit " ") x _ Hin Hx)).
    destruct (flat_map _ _); [destruct Hin|reflexivity].
Qed.

(** The loop reaches its [break] for every URL. *)
Lemma parse_advanced_search_url_total (url : list N) :
  is_Some (parse_advanced_search_url url_query upper url).
Proof.
  destruct (first_missing_term (url_query url)) as (n & Hp & Hn).
  rewrite (parse_advanced_search_url_parts url n Hp Hn). eauto.
Qed.




(** C5: without a value for [query] or without one for [searchtype], the
    simple query is malformed. *)
Theorem simple_query_malformed (url : list N) :
  query_params_of url_query url !! lit "query" = None \/
  query_params_of url_query url !! lit "query" = Some [] \/
  query_params_of url_query url !! lit "searchtype" = None \/
  query_params_of url_query url !! lit "searchtype" = Some [] ->
  parse_simple_search_url url_query url =
    Raise (MalformedQuery simple_error).
Proof.
  unfold parse_simple_search_url.
  intros [-> | [-> | [-> | ->]]]; simpl; try reflexivity;
    destruct (query_params_of url_query url !! lit "query") as [[|q l]|];
    reflexivity.
Qed.

End QueryBuilderProperties.

(** ** The properties on the samples *)

Example sample_entry_data : extract_paper_data sample_entry = Ok sample_data.
Proof. vm_compute. reflexivity. Qed.

Lemma date_fields_all_or_none_witness :
  (is_Some (strptime (lit "2023-10-19T17:58:01Z")) /\
   year sample_data <> [] /\ submission_date sample_data <> [] /\
   ris_date sample_data <> [] /\ enw_date_8 sample_data <> [])
  \/
  ((lit "2023-10-19T17:58:01Z" = [] \/ strptime (lit "2023-10-19T17:58:01Z") = None) /\
   year sample_data = [] /\ submission_date sample_data = [] /\
   ris_date sample_data = [] /\ enw_date_8 sample_data = []).
Proof.
  apply (date_fields_all_or_none sample_entry sample_data (lit "2023-10-19T17:58:01Z"));
    vm_compute; reflexivity.
Defined.



(** A timestamp written with single digits parses too; the dates are
    printed on two digits all the same. *)
Example date_fields_single_digits :
  date_fields (lit "2023-1-9T7:08:01Z") =
  (lit "2023", lit "2023/01/09/", lit "2023/01/01/", lit "January 09, 2023").
Proof. vm_compute. reflexivity. Qed.

(** So does a timestamp whose year is written with full-width digits. *)
Example date_fields_wide_digits :
  date_fields ([65298; 65296; 65298; 65299]%N ++ lit "-10-19T17:58:01Z") =
  (lit "2023", lit "2023/10/19/", lit "2023/10/01/", lit "October 19, 2023").
Proof. vm_compute. reflexivity. Qed.

Example date_fields_unparseable :
  date_fields (lit "2023-02-29T00:00:00Z") = ([], [], [], []) /\
  date_fields (lit "2023-10-19 17:58:01") = ([], [], [], []) /\
  date_fields [] = ([], [], [], []).
Proof. repeat split; vm_compute; reflexivity. Qed.





Lemma simple_query_malformed_witness :
  parse_simple_search_url sample_url_query no_query_url =
  Raise (MalformedQuery simple_error).
Proof.
  apply (simple_query_malformed sample_url_query no_query_url).
  left. vm_compute. reflexivity.
Defined.
(** A search type the table does not have gives the code [all]. *)
Example simple_query_unknown_searchtype :
  parse_simple_search_url sample_url_query
    (lit "https://arxiv.org/search/?query=graph&searchtype=everything") =
  Ok (lit "all:(graph)").
Proof. vm_compute. reflexivity. Qed.

(** Terms without any field make no clause. *)
Example advanced_query_no_clause :
  parse_advanced_search_url sample_url_query sample_upper
    (lit "https://arxiv.org/search/advanced?terms-0-term=x&terms-1-term=y") =
  Some (Raise (MalformedQuery advanced_error)).
Proof. vm_compute. reflexivity. Qed.

(** An operator in front of the first clause, when index [0] has no field. *)
Example advanced_query_leading_operator :
  parse_advanced_search_url sample_url_query sample_upper
    (lit "https://arxiv.org/search/advanced?terms-0-term=x&terms-1-term=y&terms-1-field=author&terms-1-operator=and") =
  Some (Ok (lit "AND (au:(y))")).
Proof. vm_compute. reflexivity. Qed.


(** A term escaped twice is decoded twice, and a plus sign escaped once is
    turned into a space after it is decoded. *)
Example advanced_query_escapes :
  parse_advanced_search_url sample_url_query sample_upper
    (lit "https://arxiv.org/search/advanced?terms-0-term=a%2Bb%2541&terms-0-field=title") =
  Some (Ok (lit "(ti:(a bA))")).
Proof. vm_compute. reflexivity. Qed.

(** [unquote] on escapes of ASCII, of UTF-8, and on escapes that are not
    well formed. *)
Example unquote_examples :
  unquote (lit "%2541") = lit "%41" /\
  unquote (lit "a%20b+c") = lit "a b+c" /\
  unquote (lit "%E2%82%AC") = [8364%N] /\
  unquote (lit "%f0%9f%98%80") = [128512%N] /\
  unquote (lit "%C3") = [65533%N] /\
  unquote (lit "%C0%80") = [65533; 65533]%N /\
  unquote (lit "%ED%A0%80") = [65533; 65533; 65533]%N /\
  unquote (lit "%E2%82x") = [65533; 120]%N /\
  unquote (lit "100%") = lit "100%" /\
  unquote (lit "%4") = lit "%4" /\
  unquote (lit "%zz%41") = lit "%zzA".
Proof. repeat split; vm_compute; reflexivity. Qed.
(** * Further properties *)

(** ** Extraction *)

Lemma bind_Ok_l {A B} (a : A) (k : A -> result B) : (Ok a ≫= k) = k a.
Proof. reflexivity. Qed.

Lemma bind_Raise_l {A B} (e : exn) (k : A -> result B) : (Raise e ≫= k) = Raise e.
Proof. reflexivity. Qed.

Lemma safe_get_element_plain (element : Element) (xpath : list N) :
  Str.contains (lit "atom:summary") xpath = false ->
  safe_get_element element xpath [] =
  Ok (match find element xpath with
      | Some el => match text el with Some t => Str.strip t | None => [] end
      | None => []
      end).
Proof.
  intros Hx. unfold safe_get_element. rewrite Hx.
  destruct (find element xpath) as [[t a [x|] c]|]; reflexivity.
Qed.

Lemma safe_get_element_summary_cases (entry : Element) :
  safe_get_element entry (lit "atom:summary") [] =
  if summary_ok entry
  then Ok (match find entry (lit "atom:summary") with
           | Some el => match text el with
                        | Some t => normalize_summary t
                        | None => []
                        end
           | None => []
           end)
  else Raise TypeError.
Proof.
  unfold safe_get_element, summary_ok.
  replace (Str.contains (lit "atom:summary") (lit "atom:summary")) with true by reflexivity.
  destruct (find entry (lit "atom:summary")) as [[t a [x|] c]|]; reflexivity.
Qed.

Lemma author_name_cases (author : Element) :
  author_name author =
  if author_ok author
  then Ok (match find author (lit "atom:name") with
           | Some el => match text el with Some t => Str.strip t | None => [] end
           | None => []
           end)
  else Raise AttributeError.
Proof.
  unfold author_name, author_ok.
  destruct (find author (lit "atom:name")) as [[t a [x|] c]|]; reflexivity.
Qed.

Lemma traverse_author_name (l : list Element) :
  match traverse author_name l with
  | Ok names =>
      forallb author_ok l = true /\
      Forall2 (fun author name =>
                 exists el t, find author (lit "atom:name") = Some el /\
                              text el = Some t /\ name = Str.strip t) l names
  | Raise e => e = AttributeError /\ forallb author_ok l = false
  end.
Proof.
  induction l as [|a l IH]; [split; [reflexivity|constructor]|].
  cbn [traverse forallb]. rewrite author_name_cases.
  destruct (author_ok a) eqn:Ea; cbn; [|split; reflexivity].
  destruct (traverse author_name l) as [names|e]; cbn; [|exact IH].
  destruct IH as [Hall HF]. split; [exact Hall|].
  constructor; [|exact HF].
  unfold author_ok in Ea.
  destruct (find a (lit "atom:name")) as [el|] eqn:Ef; [|discriminate].
  destruct (text el) as [t|] eqn:Et; [|discriminate].
  exists el, t. repeat split. exact Et.
Qed.

(** X1: a record is extracted unless the summary element has no text,
    which raises [TypeError], or, the summary being in order, some author
    has no name text, which raises [AttributeError]; nothing else makes
    the extraction of an entry fail. *)
Theorem extract_paper_data_outcome (entry : Element) :
  match extract_paper_data entry with
  | Ok _ =>
      summary_ok entry = true /\
      forallb author_ok (findall entry (lit "atom:author")) = true
  | Raise e =>
      (e = TypeError /\ summary_ok entry = false) \/
      (e = AttributeError /\ summary_ok entry = true /\
       forallb author_ok (findall entry (lit "atom:author")) = false)
  end.
Proof.
  unfold extract_paper_data.
  rewrite (safe_get_element_plain entry (lit "atom:title")) by reflexivity.
  rewrite (safe_get_element_plain entry (lit "atom:id")) by reflexivity.
  rewrite (safe_get_element_plain entry (lit "atom:published")) by reflexivity.
  rewrite (safe_get_element_plain entry (lit "arxiv:doi")) by reflexivity.
  rewrite safe_get_element_summary_cases.
  destruct (summary_ok entry);
    rewrite ?bind_Ok_l, ?bind_Raise_l; [|left; split; reflexivity].
  match goal with
  | |- context [identifier_of ?x] => destruct (identifier_of x) as [i u]
  end.
  pose proof (traverse_author_name (findall entry (lit "atom:author"))) as HT.
  destruct (traverse author_name (findall entry (lit "atom:author"))) as [names|e];
    rewrite ?bind_Ok_l, ?bind_Raise_l.
  - match goal with
    | |- context [date_fields ?x] => destruct (date_fields x) as [[[y sd] rd] ed]
    end.
    split; [reflexivity|apply HT].
  - right. destruct HT as [-> HT]. repeat split. exact HT.
Qed.

Lemma extract_paper_data_fields (entry : Element) (data : paper_data) :
  extract_paper_data entry = Ok data ->
  title data = plain_text entry (lit "atom:title") /\
  doi data = plain_text entry (lit "arxiv:doi") /\
  safe_get_element entry (lit "atom:summary") [] = Ok (summary data) /\
  traverse author_name (findall entry (lit "atom:author")) = Ok (authors data) /\
  (arxiv_id data, arxiv_url data) = identifier_of (plain_text entry (lit "atom:id")) /\
  (year data, submission_date data, ris_date data, enw_date_8 data) =
    date_fields (plain_text entry (lit "atom:published")).
Proof.
  unfold extract_paper_data, plain_text.
  rewrite (safe_get_element_plain entry (lit "atom:title")) by reflexivity.
  rewrite (safe_get_element_plain entry (lit "atom:id")) by reflexivity.
  rewrite (safe_get_element_plain entry (lit "atom:published")) by reflexivity.
  rewrite (safe_get_element_plain entry (lit "arxiv:doi")) by reflexivity.
  destruct (safe_get_element entry (lit "atom:summary") []) as [s|e];
    rewrite ?bind_Ok_l, ?bind_Raise_l; [|discriminate].
  match goal with
  | |- context [identifier_of ?x] => destruct (identifier_of x) as [i u]
  end.
  destruct (traverse author_name (findall entry (lit "atom:author"))) as [names|e];
    rewrite ?bind_Ok_l, ?bind_Raise_l; [|discriminate].
  match goal with
  | |- context [date_fields ?x] => destruct (date_fields x) as [[[y sd] rd] ed]
  end.
  intros [= <-]. repeat split.
Qed.

(** X2: the authors of a record are the name texts of the author
    elements of the entry, stripped, one for each element and in the order
    of the document. *)
Theorem extract_authors_in_order (entry : Element) (data : paper_data) :
  extract_paper_data entry = Ok data ->
  Forall2 (fun author name =>
             exists el t, find author (lit "atom:name") = Some el /\
                          text el = Some t /\ name = Str.strip t)
          (findall entry (lit "atom:author")) (authors data).
Proof.
  intros H. apply extract_paper_data_fields in H as (_ & _ & _ & Ha & _).
  pose proof (traverse_author_name (findall entry (lit "atom:author"))) as HT.
  rewrite Ha in HT. apply HT.
Qed.

Lemma extract_authors_in_order_witness :
  Forall2 (fun author name =>
             exists el t, find author (lit "atom:name") = Some el /\
                          text el = Some t /\ name = Str.strip t)
          (findall sample_entry (lit "atom:author")) (authors sample_data).
Proof.
  apply (extract_authors_in_order sample_entry sample_data).
  vm_compute. reflexivity.
Defined.

(** ** White space around a text *)

Lemma lstrip_head_nonspace (s : list N) : head_nonspace (Str.lstrip s).
Proof.
  induction s as [|c s IH]; [exact I|].
  simpl. destruct (Str.isspace c) eqn:E; [exact IH|exact E].
Qed.

Lemma lstrip_id (s : list N) : head_nonspace s -> Str.lstrip s = s.
Proof. destruct s as [|c s]; [reflexivity|]. simpl. intros ->. reflexivity. Qed.

Lemma rstrip_cons (c : N) (r : list N) :
  Str.rstrip ((c :: r)) =
  match Str.rstrip r with
  | [] => if Str.isspace c then [] else [c]
  | (d :: r') => (c :: ((d :: r')))
  end.
Proof. reflexivity. Qed.

Lemma rstrip_idempotent (s : list N) : Str.rstrip (Str.rstrip s) = Str.rstrip s.
Proof.
  induction s as [|c s IH]; [reflexivity|].
  rewrite rstrip_cons. destruct (Str.rstrip s) as [|d r'] eqn:E.
  - destruct (Str.isspace c) eqn:Ec; [reflexivity|].
    rewrite rstrip_cons. simpl. rewrite Ec. reflexivity.
  - rewrite rstrip_cons, IH. reflexivity.
Qed.

Lemma rstrip_head_nonspace (s : list N) :
  head_nonspace s -> head_nonspace (Str.rstrip s).
Proof.
  destruct s as [|c s]; [intros _; exact I|].
  simpl. intros Hc. destruct (Str.rstrip s); [rewrite Hc|]; exact Hc.
Qed.

Lemma strip_idempotent (s : list N) : Str.strip (Str.strip s) = Str.strip s.
Proof.
  unfold Str.strip.
  rewrite (lstrip_id (Str.rstrip (Str.lstrip s)))
    by apply rstrip_head_nonspace, lstrip_head_nonspace.
  apply rstrip_idempotent.
Qed.

Lemma plain_text_stripped (element : Element) (xpath : list N) :
  stripped (plain_text element xpath).
Proof.
  unfold stripped, plain_text.
  destruct (find element xpath) as [el|]; [|reflexivity].
  destruct (text el) as [t|]; [apply strip_idempotent|reflexivity].
Qed.

(** X3: the title, the DOI and every author name of a record carry no
    white space at either end: stripping them again changes nothing. *)
Theorem extract_fields_stripped (entry : Element) (data : paper_data) :
  extract_paper_data entry = Ok data ->
  stripped (title data) /\ stripped (doi data) /\ Forall stripped (authors data).
Proof.
  intros H. apply extract_paper_data_fields in H as (-> & -> & _ & Ha & _).
  split; [apply plain_text_stripped|]. split; [apply plain_text_stripped|].
  pose proof (traverse_author_name (findall entry (lit "atom:author"))) as HT.
  rewrite Ha in HT. destruct HT as [_ HA]. clear Ha.
  induction HA as [|a n l names (el & t & _ & _ & ->) _ IH]; [constructor|].
  constructor; [apply strip_idempotent|exact IH].
Qed.

Lemma extract_fields_stripped_witness :
  stripped (title sample_data) /\ stripped (doi sample_data) /\
  Forall stripped (authors sample_data).
Proof.
  apply (extract_fields_stripped sample_entry sample_data).
  vm_compute. reflexivity.
Defined.

(** ** The summary of a record *)

Lemma all_impl (p q : N -> bool) (s : list N) :
  (forall c, p c = true -> q c = true) -> Str.all p s = true -> Str.all q s = true.
Proof.
  intros Hpq. induction s as [|c s IH]; [reflexivity|].
  simpl. intros [Hc Hs]%andb_true_iff. rewrite (Hpq c Hc), (IH Hs). reflexivity.
Qed.

Lemma all_andb (p q : N -> bool) (s : list N) :
  Str.all p s = true -> Str.all q s = true ->
  Str.all (fun c => p c && q c) s = true.
Proof.
  induction s as [|c s IH]; [reflexivity|].
  simpl. intros [Hc Hs]%andb_true_iff [Hc' Hs']%andb_true_iff.
  rewrite Hc, Hc', (IH Hs Hs'). reflexivity.
Qed.

Lemma normalize_summary_chars (t : list N) :
  Str.all summary_char (normalize_summary t) = true.
Proof.
  unfold summary_char, normalize_summary. apply all_andb.
  - apply all_join; [reflexivity|]. apply fields_all, filter_all.
  - apply all_join; [reflexivity|].
    eapply Forall_impl; [apply fields_runs|].
    intros w [_ Hw]. revert Hw. apply all_impl.
    intros c ->. reflexivity.
Qed.

Lemma replace_absent (a : N) (b s : list N) :
  Str.all (fun c => negb (N.eqb c a)) s = true -> Str.replace a b s = s.
Proof.
  induction s as [|c s IH]; [reflexivity|].
  simpl. intros [Hc Hs]%andb_true_iff. apply negb_true_iff in Hc.
  rewrite Hc, (IH Hs). reflexivity.
Qed.

Lemma summary_char_no_brace (c : N) :
  summary_char c = true ->
  negb (N.eqb c (ch "{")) = true /\ negb (N.eqb c (ch "}")) = true.
Proof.
  unfold summary_char. intros [Hs _]%andb_true_iff.
  destruct (N.eqb_spec c (ch "{")) as [->|_]; [discriminate|].
  destruct (N.eqb_spec c (ch "}")) as [->|_]; [discriminate|].
  split; reflexivity.
Qed.

(** X4: the summary of a record holds none of the characters [\ { } $] and
    no white space but the space, so the escaping of braces that the
    BibTeX renderer applies to it changes nothing. *)
Theorem extract_summary_clean (entry : Element) (data : paper_data) :
  extract_paper_data entry = Ok data ->
  Str.all summary_char (summary data) = true /\
  Str.replace (ch "}") (lit "\}") (Str.replace (ch "{") (lit "\{") (summary data)) = summary data.
Proof.
  intros H. apply extract_paper_data_fields in H as (_ & _ & Hs & _).
  assert (Hc : Str.all summary_char (summary data) = true).
  { rewrite safe_get_element_summary_cases in Hs.
    destruct (summary_ok entry); [|discriminate]. injection Hs as <-.
    destruct (find entry (lit "atom:summary")) as [el|]; [|reflexivity].
    destruct (text el) as [t|]; [apply normalize_summary_chars|reflexivity]. }
  split; [exact Hc|].
  rewrite (replace_absent (ch "{")) by
    (apply (all_impl _ _ _ (fun c H => proj1 (summary_char_no_brace c H)) Hc)).
  apply replace_absent.
  apply (all_impl _ _ _ (fun c H => proj2 (summary_char_no_brace c H)) Hc).
Qed.

Lemma extract_summary_clean_witness :
  Str.all summary_char (summary sample_data) = true /\
  Str.replace (ch "}") (lit "\}") (Str.replace (ch "{") (lit "\{") (summary sample_data)) =
  summary sample_data.
Proof.
  apply (extract_summary_clean sample_entry sample_data).
  vm_compute. reflexivity.
Defined.


(** ** The dates of a timestamp written with all its digits *)

(** X5: for a published text written [YYYY-MM-DDT...] with the digits [0]
    to [9] that is accepted as a timestamp, the year is the number the
    text writes, without zeros in front, the slash date and the RIS date
    carry it with the very digits of the month and of the day, or [01],
    and the long date is the name of the month, the day and the year. *)
Theorem dated_text_dates (y1 y2 y3 y4 m1 m2 d1 d2 : N) (time : list N)
    (dt : datetime) :
  strptime (dated_text y1 y2 y3 y4 m1 m2 d1 d2 time) = Some dt ->
  forallb ascii_digit [y1; y2; y3; y4; m1; m2; d1; d2] = true ->
  date_fields (dated_text y1 y2 y3 y4 m1 m2 d1 d2 time) =
    (Str.of_nat (number_of [y1; y2; y3; y4]),
     Str.of_nat (number_of [y1; y2; y3; y4]) ++ lit "/" ++ [m1; m2] ++ lit "/" ++
       [d1; d2] ++ lit "/",
     Str.of_nat (number_of [y1; y2; y3; y4]) ++ lit "/" ++ [m1; m2] ++ lit "/01/",
     month_name (number_of [m1; m2]) ++ lit " " ++ [d1; d2] ++ lit ", " ++
       Str.of_nat (number_of [y1; y2; y3; y4])).
Proof.
  intros H Hall.
  pose proof (date_fields_cases (dated_text y1 y2 y3 y4 m1 m2 d1 d2 time)) as C.
  rewrite H in C. rewrite C.
  pose proof (valid_datetime_bounds _ (strptime_valid _ _ H)) as (Hy & Hm & Hd).
  destruct (dated_text_read _ _ _ _ _ _ _ _ _ _ H Hall) as ((EY & EM & ED) & EN).
  unfold fmt_Y, fmt_m, fmt_d. rewrite !zfill_two_digits by lia.
  rewrite EM, ED, <- EN, <- EY. reflexivity.
Qed.

Lemma dated_text_dates_witness :
  date_fields (lit "0999-10-19T17:58:01Z") =
    (lit "999", lit "999/10/19/", lit "999/10/01/", lit "October 19, 999").
Proof.
  apply (dated_text_dates (ch "0") (ch "9") (ch "9") (ch "9") (ch "1") (ch "0")
           (ch "1") (ch "9") (lit "17:58:01Z") (mkdatetime 999 10 19 17 58 1));
    vm_compute; reflexivity.
Defined.
(** ** The citation key *)

Lemma all_take (p : N -> bool) (n : nat) (s : list N) :
  Str.all p s = true -> Str.all p (take n s) = true.
Proof.
  revert s. induction n as [|n IH]; intros [|c s]; try reflexivity.
  simpl. intros [Hc Hs]%andb_true_iff. rewrite Hc, (IH s Hs). reflexivity.
Qed.

Lemma lower_char_key_char (c : N) :
  Str.isalnum_ascii c = true -> key_char (Str.lower_char c) = true.
Proof.
  unfold Str.isalnum_ascii, key_char, Str.lower_char, in_range.
  intros H. destruct ((65 <=? c)%N && (c <=? 90)%N) eqn:E.
  - rewrite !orb_true_iff, !andb_true_iff, !N.leb_le in *. lia.
  - rewrite !orb_true_iff, !andb_true_iff, !N.leb_le in *.
    rewrite andb_false_iff, !N.leb_gt in E. lia.
Qed.

Lemma all_lower (s : list N) :
  Str.all Str.isalnum_ascii s = true -> Str.all key_char (Str.lower s) = true.
Proof.
  unfold Str.lower. induction s as [|c s IH]; [reflexivity|].
  simpl. intros [Hc Hs]%andb_true_iff.
  rewrite (lower_char_key_char c Hc), (IH Hs). reflexivity.
Qed.

Lemma key_words_alnum (title : list N) :
  Forall (fun w => Str.all Str.isalnum_ascii w = true) (key_words title).
Proof.
  unfold key_words. apply List.Forall_forall. intros w Hw.
  apply List.filter_In in Hw as [_ Hw]. exact Hw.
Qed.

(** X6: a citation key has 25 characters at most; when the year is made
    of digits and lower-case letters, so is the key. *)
Theorem generate_bibtex_key_shape (title year : list N) :
  length (generate_bibtex_key title year) <= 25 /\
  (Str.all key_char year = true ->
   Str.all key_char (generate_bibtex_key title year) = true).
Proof.
  unfold generate_bibtex_key. split; [rewrite length_take; lia|].
  intros Hy. apply all_take. rewrite all_append, Hy, andb_true_r.
  apply all_lower, all_join; [reflexivity|].
  pose proof (key_words_alnum title) as Hw.
  destruct (key_words title) as [|w ws]; [repeat constructor|].
  apply Forall_take, Hw.
Qed.

Lemma generate_bibtex_key_shape_witness :
  Str.all key_char (generate_bibtex_key (lit "Deep Learning: Methods & Models") (lit "2023")) = true.
Proof.
  apply (generate_bibtex_key_shape (lit "Deep Learning: Methods & Models") (lit "2023")).
  reflexivity.
Defined.

(** ** Author names *)

Lemma split_join_runs (ws : list (list N)) :
  Forall (run Str.isspace) ws -> Str.split (Str.join (lit " ") ws) = ws.
Proof. intros H. unfold Str.split. apply fields_join; [reflexivity|exact H]. Qed.

(** X7: authors whose names are two words or more, separated by single
    spaces, are written last word first, [Last, First Middle], and joined
    by [ and ] in their order. *)
Theorem format_authors_last_first (names : list (list (list N))) :
  Forall (fun ws => Forall (run Str.isspace) ws /\ 2 <= length ws) names ->
  format_authors_for_bibtex (List.map (Str.join (lit " ")) names) =
  Str.join (lit " and ") (List.map last_first names).
Proof.
  intros H.
  transitivity
    (Str.join (lit " and ")
       (List.map
          (fun author_name =>
             let name_parts := Str.split author_name in
             if (1 <? length name_parts)%nat
             then List.last name_parts [] ++ lit ", " ++
                  Str.join (lit " ") (removelast name_parts)
             else author_name)
          (List.map (Str.join (lit " ")) names))).
  { unfold format_authors_for_bibtex.
    destruct (List.map (Str.join (lit " ")) names); reflexivity. }
  rewrite List.map_map.
  f_equal. apply List.map_ext_in. intros w Hw. cbv zeta.
  rewrite List.Forall_forall in H. destruct (H w Hw) as [Hr Hl].
  rewrite (split_join_runs w Hr).
  destruct (1 <? length w)%nat eqn:E; [reflexivity|].
  apply Nat.ltb_ge in E. lia.
Qed.

Lemma format_authors_last_first_witness :
  format_authors_for_bibtex [lit "Jane A Doe"; lit "John Smith"] =
  (lit "Doe, Jane A and Smith, John").
Proof.
  apply (format_authors_last_first [[lit "Jane"; lit "A"; lit "Doe"]; [lit "John"; lit "Smith"]]).
  repeat constructor; discriminate.
Defined.


(** A word with a letter outside of ASCII is no word of the key. *)
Example generate_bibtex_key_accent :
  generate_bibtex_key (lit "Caf" ++ [233%N] ++ lit " Learning Deep") (lit "2023") =
  lit "learningdeep2023".
Proof. vm_compute. reflexivity. Qed.

(** ** The lines of a block *)

Lemma split_on_nl_line (l : list N) : one_line l -> split_on 10%N l = [l].
Proof.
  unfold one_line. induction l as [|c l IH]; [reflexivity|].
  simpl. intros [Hc Hl]%andb_true_iff. apply negb_true_iff in Hc.
  unfold is_nl in Hc. rewrite Hc, (IH Hl). reflexivity.
Qed.

Lemma split_on_nl_cons (l rest : list N) :
  one_line l -> split_on 10%N (l ++ nl ++ rest) = l :: split_on 10%N rest.
Proof.
  change (nl ++ rest) with (10%N :: rest).
  unfold one_line. induction l as [|c l IH]; [reflexivity|].
  simpl. intros [Hc Hl]%andb_true_iff. apply negb_true_iff in Hc.
  unfold is_nl in Hc. rewrite Hc, (IH Hl). reflexivity.
Qed.

(** Cutting a block at its newlines gives back the lines it was made of. *)
Lemma split_on_join_lines (lines : list (list N)) :
  lines <> [] -> Forall one_line lines ->
  split_on 10%N (Str.join nl lines) = lines.
Proof.
  intros Hne H. induction H as [|l lines Hl Hlines IH]; [congruence|].
  destruct lines as [|l2 lines]; [apply split_on_nl_line, Hl|].
  rewrite join_cons2, split_on_nl_cons by exact Hl.
  rewrite IH by discriminate. reflexivity.
Qed.

Lemma filter_tagged (tag_ : list N) (bodies : list (list N)) :
  List.filter (Str.startswith tag_) (List.map (fun b => tag_ ++ b) bodies) =
  List.map (fun b => tag_ ++ b) bodies.
Proof.
  induction bodies as [|b bodies IH]; [reflexivity|].
  simpl. rewrite IH.
  assert (H : Str.startswith tag_ (tag_ ++ b) = true).
  { clear. induction tag_ as [|c t IHt]; [reflexivity|].
    simpl. rewrite N.eqb_refl. exact IHt. }
  rewrite H. reflexivity.
Qed.

Lemma drop_tagged (tag_ : list N) (bodies : list (list N)) :
  List.map (str_drop (length tag_)) (List.map (fun b => tag_ ++ b) bodies) =
  bodies.
Proof.
  rewrite List.map_map. rewrite <- (List.map_id bodies) at 2.
  apply List.map_ext. intros b. induction tag_ as [|c t IH]; [destruct b; reflexivity|].
  exact IH.
Qed.

Lemma startswith_head_ne (a b : N) (p s : list N) :
  a <> b -> Str.startswith ((a :: p)) ((b :: s)) = false.
Proof. intros H. simpl. apply N.eqb_neq in H. rewrite H. reflexivity. Qed.

Lemma filter_app_map (p : list N -> bool) (f : list N -> list N)
    (bodies rest : list (list N)) :
  List.filter p (List.map f bodies ++ rest) =
  List.filter p (List.map f bodies) ++ List.filter p rest.
Proof. apply List.filter_app. Qed.

Lemma filter_other_tag (p : list N -> bool) (f : list N -> list N)
    (bodies : list (list N)) :
  (forall b, p (f b) = false) -> List.filter p (List.map f bodies) = [].
Proof.
  intros H. induction bodies as [|b bodies IH]; [reflexivity|].
  simpl. rewrite H. exact IH.
Qed.

Lemma ris_lines_one_line (data : paper_data) :
  one_line_record data -> Forall one_line (ris_lines data).
Proof.
  intros (Ht & Hs & Hd & Hi & Hu & Ha & Hy & Hsd & Hp & He).
  unfold ris_lines.
  repeat first
    [ apply Forall_nil_2
    | apply Forall_cons_2; [first [apply one_line_append; [reflexivity|assumption]
                                  | reflexivity]|]
    | apply Forall_app_2
    | match goal with
      | |- Forall _ (when ?c _) => destruct c; cbn [when]
      end ].
  induction Ha as [|a l Hl _ IH]; [constructor|].
  constructor; [apply one_line_append; [reflexivity|exact Hl]|exact IH].
Qed.

Lemma filter_cons_true (p : list N -> bool) (x : list N) (l : list (list N)) :
  p x = true -> List.filter p (x :: l) = x :: List.filter p l.
Proof. intros H. simpl. rewrite H. reflexivity. Qed.

Lemma filter_cons_false (p : list N -> bool) (x : list N) (l : list (list N)) :
  p x = false -> List.filter p (x :: l) = List.filter p l.
Proof. intros H. simpl. rewrite H. reflexivity. Qed.

Lemma filter_nil (p : list N -> bool) : List.filter p [] = [].
Proof. reflexivity. Qed.

Ltac read_lines :=
  repeat first
    [ rewrite filter_cons_true by reflexivity
    | rewrite filter_cons_false by reflexivity
    | rewrite filter_app_map
    | rewrite filter_tagged
    | rewrite filter_other_tag by (intros; reflexivity)
    | rewrite filter_nil ];
  rewrite ?app_nil_r, ?drop_tagged; reflexivity.

(** X8: in the RIS block of a record whose fields hold no newline, the
    lines of a tag give the fields back: the [AU] lines are the authors in
    their order, the title, the summary, the URL and the identifier have
    one line each, and the year, the date, the DOI and the category have
    one line when they are not empty and none when they are. *)
Theorem ris_block_fields (data : paper_data) :
  one_line_record data ->
  tagged_lines (lit "AU  - ") (format_to_ris data) = authors data /\
  tagged_lines (lit "T1  - ") (format_to_ris data) = [title data] /\
  tagged_lines (lit "AB  - ") (format_to_ris data) = [summary data] /\
  tagged_lines (lit "UR  - ") (format_to_ris data) = [arxiv_url data] /\
  tagged_lines (lit "EP  - ") (format_to_ris data) = [arxiv_id data] /\
  tagged_lines (lit "PY  - ") (format_to_ris data) =
    when (Str.nonempty (year data)) [year data] /\
  tagged_lines (lit "DA  - ") (format_to_ris data) =
    when (Str.nonempty (submission_date data)) [submission_date data] /\
  tagged_lines (lit "DO  - ") (format_to_ris data) =
    when (Str.nonempty (doi data)) [doi data] /\
  tagged_lines (lit "KW  - ") (format_to_ris data) =
    when (truthy (primary_category data)) [fmt_opt (primary_category data)].
Proof.
  intros H.
  change (format_to_ris data) with (Str.join nl (ris_lines data)).
  unfold tagged_lines.
  rewrite split_on_join_lines by (try apply ris_lines_one_line; try discriminate; exact H).
  unfold ris_lines.
  destruct (Str.nonempty (year data)), (Str.nonempty (submission_date data)),
    (Str.nonempty (doi data)), (truthy (primary_category data)); cbn [when app].
  all: repeat split.
  all: read_lines.
Qed.

Lemma ris_block_fields_witness :
  tagged_lines (lit "AU  - ") (format_to_ris sample_data) = [lit "Jane A Doe"] /\
  tagged_lines (lit "DO  - ") (format_to_ris sample_data) = [].
Proof.
  assert (H : one_line_record sample_data) by (repeat split; repeat constructor).
  destruct (ris_block_fields sample_data H) as (Ha & _ & _ & _ & _ & _ & _ & Hd & _).
  split; [exact Ha|exact Hd].
Defined.

Lemma enw_lines_one_line (data : paper_data) :
  one_line_record data -> Forall one_line (enw_lines data).
Proof.
  intros (Ht & Hs & Hd & Hi & Hu & Ha & Hy & Hsd & Hp & He).
  unfold enw_lines.
  repeat first
    [ apply Forall_nil_2
    | apply Forall_cons_2; [first [apply one_line_append; [reflexivity|assumption]
                                  | reflexivity]|]
    | apply Forall_app_2
    | match goal with
      | |- Forall _ (when ?c _) => destruct c; cbn [when]
      end ].
  induction Ha as [|a l Hl _ IH]; [constructor|].
  constructor; [apply one_line_append; [reflexivity|exact Hl]|exact IH].
Qed.

(** X9: in the EndNote block of a record whose fields hold no newline,
    the [%A] lines are the authors in their order; the title, the
    keywords, the note, the URL and the summary have one line each,
    whatever they hold; the year, the date and the DOI have one line when
    they are not empty and none when they are. *)
Theorem enw_block_fields (data : paper_data) :
  one_line_record data ->
  tagged_lines (lit "%A ") (format_to_enw data) = authors data /\
  tagged_lines (lit "%T ") (format_to_enw data) = [title data] /\
  tagged_lines (lit "%K ") (format_to_enw data) =
    [lit "arXiv; " ++ fmt_opt (primary_category data)] /\
  tagged_lines (lit "%Z ") (format_to_enw data) = [lit "arXiv:" ++ arxiv_id data] /\
  tagged_lines (lit "%U ") (format_to_enw data) = [arxiv_url data] /\
  tagged_lines (lit "%X ") (format_to_enw data) = [summary data] /\
  tagged_lines (lit "%Y ") (format_to_enw data) =
    when (Str.nonempty (year data)) [year data] /\
  tagged_lines (lit "%8 ") (format_to_enw data) =
    when (Str.nonempty (enw_date_8 data)) [enw_date_8 data] /\
  tagged_lines (lit "%R ") (format_to_enw data) =
    when (Str.nonempty (doi data)) [doi data].
Proof.
  intros H.
  change (format_to_enw data) with (Str.join nl (enw_lines data)).
  unfold tagged_lines.
  rewrite split_on_join_lines by (try apply enw_lines_one_line; try discriminate; exact H).
  unfold enw_lines.
  destruct (Str.nonempty (year data)), (Str.nonempty (enw_date_8 data)),
    (Str.nonempty (doi data)); cbn [when app].
  all: repeat split.
  all: read_lines.
Qed.

Lemma enw_block_fields_witness :
  tagged_lines (lit "%A ") (format_to_enw sample_data) = [lit "Jane A Doe"] /\
  tagged_lines (lit "%R ") (format_to_enw sample_data) = [].
Proof.
  assert (H : one_line_record sample_data) by (repeat split; repeat constructor).
  destruct (enw_block_fields sample_data H) as (Ha & _ & _ & _ & _ & _ & _ & _ & Hd).
  split; [exact Ha|exact Hd].
Defined.


(** ** The BibTeX block *)

Lemma strip_article (body : list N) :
  Str.strip (nl ++ lit "@article{" ++ body ++ lit "}" ++ nl) = lit "@article{" ++ body ++ lit "}".
Proof.
  unfold Str.strip.
  change (Str.lstrip (nl ++ lit "@article{" ++ body ++ lit "}" ++ nl))
    with (lit "@article{" ++ body ++ lit "}" ++ nl).
  replace (lit "@article{" ++ body ++ lit "}" ++ nl)
    with ((lit "@article{" ++ body) ++ ((ch "}") :: nl))
    by (rewrite !append_assoc; reflexivity).
  rewrite rstrip_nonspace_nl by reflexivity.
  rewrite !append_assoc. reflexivity.
Qed.

Lemma startswith_append (p s : list N) : Str.startswith p (p ++ s) = true.
Proof.
  induction p as [|c p IH]; [reflexivity|].
  simpl. rewrite N.eqb_refl. exact IH.
Qed.

Lemma contains_head (p s : list N) : Str.contains p (p ++ s) = true.
Proof.
  destruct p as [|c p]; [destruct s; reflexivity|].
  rewrite append_cons. cbn [Str.contains Str.startswith].
  rewrite N.eqb_refl, startswith_append. reflexivity.
Qed.

Lemma contains_append (p a s : list N) : Str.contains p (a ++ p ++ s) = true.
Proof.
  induction a as [|c a IH]; [rewrite append_nil_l; apply contains_head|].
  rewrite append_cons.
  change (Str.contains p ((c :: (a ++ p ++ s))))
    with (Str.startswith p ((c :: (a ++ p ++ s)))
          || Str.contains p (a ++ p ++ s)).
  rewrite IH. apply orb_true_r.
Qed.

(** X10: the BibTeX block of a record, whatever its fields hold, is the
    entry from [@article{] and the citation key to the closing brace,
    without the newline in front of it and the one behind: the fields
    come in a fixed order, the category and the DOI only when they are not
    empty, an empty line stands before the closing brace, and the line
    [archivePrefix = {arXiv}] is always there. *)
Theorem format_to_bibtex_shape (data : paper_data) :
  format_to_bibtex data =
    (lit "@article{") ++ generate_bibtex_key (title data) (year data) ++ lit "," ++
    nl ++ lit "title = {{" ++ title data ++ lit "}}," ++
    nl ++ lit "author = {" ++ format_authors_for_bibtex (authors data) ++ lit "}," ++
    nl ++ lit "journal = {arXiv}," ++
    nl ++ lit "archivePrefix = {arXiv}," ++
    nl ++ lit "eprint = {" ++ arxiv_id data ++ lit "}," ++
    (if truthy (primary_category data)
     then nl ++ lit "  primaryClass = {" ++ fmt_opt (primary_category data) ++ lit "},"
     else []) ++
    (if Str.nonempty (doi data)
     then nl ++ lit "  doi = {" ++ doi data ++ lit "},"
     else []) ++
    nl ++ lit "year = {" ++ year data ++ lit "}," ++
    nl ++ lit "abstract = {{" ++
      Str.replace (ch "}") (lit "\}") (Str.replace (ch "{") (lit "\{") (summary data)) ++ lit "}}" ++
    nl ++ nl ++ lit "}" /\
  Str.contains (lit "archivePrefix = {arXiv}") (format_to_bibtex data) = true.
Proof.
  match goal with
  | |- ?l = ?r /\ _ => assert (Heq : l = r)
  end.
  { unfold format_to_bibtex. cbv zeta.
    match goal with
    | |- Str.strip (nl ++ lit "@article{" ++ ?b) = _ =>
        replace (nl ++ lit "@article{" ++ b) with
          (nl ++ lit "@article{" ++
           (generate_bibtex_key (title data) (year data) ++ lit "," ++
            nl ++ lit "title = {{" ++ title data ++ lit "}}," ++
            nl ++ lit "author = {" ++ format_authors_for_bibtex (authors data) ++ lit "}," ++
            nl ++ lit "journal = {arXiv}," ++
            nl ++ lit "archivePrefix = {arXiv}," ++
            nl ++ lit "eprint = {" ++ arxiv_id data ++ lit "}," ++
            (if truthy (primary_category data)
             then nl ++ lit "  primaryClass = {" ++ fmt_opt (primary_category data) ++ lit "},"
             else []) ++
            (if Str.nonempty (doi data)
             then nl ++ lit "  doi = {" ++ doi data ++ lit "},"
             else []) ++
            nl ++ lit "year = {" ++ year data ++ lit "}," ++
            nl ++ lit "abstract = {{" ++
              Str.replace (ch "}") (lit "\}") (Str.replace (ch "{") (lit "\{") (summary data)) ++ lit "}}" ++
            nl ++ nl) ++ lit "}" ++ nl)
    end.
    - rewrite strip_article. rewrite !append_assoc. reflexivity.
    - destruct (truthy (primary_category data)), (Str.nonempty (doi data));
        rewrite ?append_assoc, ?append_nil_l; reflexivity. }
  split; [exact Heq|]. rewrite Heq.
  match goal with
  | |- Str.contains _ (?a ++ ?k ++ ?c ++ ?n1 ++ ?t ++ ?ti ++ ?t2 ++ ?n2
                        ++ ?au ++ ?aus ++ ?au2 ++ ?n3 ++ ?j ++ ?n4
                        ++ ?ap ++ ?rest) = true =>
      replace (a ++ k ++ c ++ n1 ++ t ++ ti ++ t2 ++ n2
               ++ au ++ aus ++ au2 ++ n3 ++ j ++ n4 ++ ap ++ rest)
        with ((a ++ k ++ c ++ n1 ++ t ++ ti ++ t2 ++ n2
               ++ au ++ aus ++ au2 ++ n3 ++ j ++ n4)
              ++ lit "archivePrefix = {arXiv}" ++ (lit "," ++ rest))
        by (rewrite !append_assoc; reflexivity)
  end.
  apply contains_append.
Qed.

(** ** The document of a response *)

Lemma traverse_Ok {A B} (f : A -> result B) (l : list A) (bs : list B) :
  traverse f l = Ok bs -> Forall2 (fun a b => f a = Ok b) l bs.
Proof.
  revert bs. induction l as [|a l IH]; intros bs; simpl.
  - intros [= <-]. constructor.
  - destruct (f a) as [b|e] eqn:Ea; [|discriminate].
    rewrite bind_Ok_l. destruct (traverse f l) as [bs'|e]; [|discriminate].
    rewrite bind_Ok_l. intros [= <-]. constructor; [exact Ea|apply IH; reflexivity].
Qed.

Lemma render_Ok (formatter : paper_data -> list N) (entries : list Element)
    (blocks : list (list N)) :
  traverse (fun entry => data ← extract_paper_data entry; Ok (formatter data)) entries
    = Ok blocks ->
  exists records,
    Forall2 (fun entry data => extract_paper_data entry = Ok data) entries records /\
    blocks = List.map formatter records.
Proof.
  intros H%traverse_Ok. induction H as [|e b l bs He _ IH].
  - exists []. split; constructor.
  - destruct IH as (records & HF & ->).
    destruct (extract_paper_data e) as [d|x] eqn:Ed; [|discriminate].
    rewrite bind_Ok_l in He. injection He as <-.
    exists (d :: records). split; [constructor; assumption|reflexivity].
Qed.

(** X11: a document is made of one block for each entry of the feed, in
    the order of the feed, each the rendering of the record extracted
    from its entry: when an entry cannot be extracted there is no document
    at all. *)
Theorem parse_arxiv_xml_blocks (root : Element) (formatter : paper_data -> list N)
    (doc : list N) :
  parse_arxiv_xml root formatter = Ok doc ->
  exists records,
    Forall2 (fun entry data => extract_paper_data entry = Ok data)
            (findall root (lit "atom:entry")) records /\
    doc = Str.join separator (List.map formatter records).
Proof.
  unfold parse_arxiv_xml. intros H. bind_inv H. bind_inv H.
  injection H as <-. apply render_Ok in Hv0 as (records & HF & ->).
  exists records. split; [exact HF|reflexivity].
Qed.

Lemma parse_arxiv_xml_blocks_witness :
  exists records,
    Forall2 (fun entry data => extract_paper_data entry = Ok data)
            (findall property_feed (lit "atom:entry")) records /\
    format_to_ris
      (mkpaper_data (lit "TYPE THEORY") [] [] (lit "2310.12345v2")
         (lit "https://arxiv.org/abs/2310.12345v2") [] [] [] [] (Some []) []) =
    Str.join separator (List.map format_to_ris records).
Proof.
  apply (parse_arxiv_xml_blocks property_feed format_to_ris). vm_compute. reflexivity.
Defined.


(** ** Counting the records of a document *)

Section Count.

Variable sub : list N.

(** Skipping more characters finds no more occurrences, and at most one
    occurrence is lost by skipping fewer characters than [sub] has. *)
Lemma count_from_skip (s : list N) :
  (forall k, count_from sub (S k) s <= count_from sub k s) /\
  (forall k, k <= length sub - 1 ->
             count_from sub 0 s <= S (count_from sub k s)).
Proof.
  induction s as [|c r [M A]]; [split; intros; simpl; lia|].
  assert (Mono : forall k k', k <= k' -> count_from sub k' r <= count_from sub k r).
  { intros k k' H. induction H as [|k' _ IH]; [lia|].
    specialize (M k'). lia. }
  split.
  - intros [|k]; cbn [count_from].
    + destruct (Str.startswith sub ((c :: r))); [|lia].
      specialize (A (length sub - 1)). lia.
    + apply M.
  - intros [|k] Hk; [lia|]. cbn [count_from].
    destruct (Str.startswith sub ((c :: r))).
    + specialize (Mono k (length sub - 1)). lia.
    + specialize (A k). lia.
Qed.

Lemma count_from_prepend (a s : list N) :
  count_from sub 0 s <= count_from sub 0 (a ++ s).
Proof.
  induction a as [|c a IH]; [rewrite append_nil_l; lia|].
  rewrite append_cons.
  pose proof (proj1 (count_from_skip ((c :: (a ++ s)))) 0) as H.
  change (count_from sub 1 ((c :: (a ++ s))))
    with (count_from sub 0 (a ++ s)) in H.
  lia.
Qed.

Lemma count_from_skip_all (u s : list N) :
  count_from sub (length u) (u ++ s) = count_from sub 0 s.
Proof.
  induction u as [|c u IH]; [destruct s; reflexivity|].
  rewrite append_cons. exact IH.
Qed.

End Count.

(** A text that begins with [sub] has one occurrence more than what
    follows a first part of it. *)
Lemma count_from_tagged (sub body rest : list N) :
  sub <> [] ->
  S (count_from sub 0 rest) <= count_from sub 0 (sub ++ body ++ rest).
Proof.
  intros Hne.
  pose proof (startswith_append sub (body ++ rest)) as Hs.
  pose proof (count_from_skip_all sub (str_drop 1 sub) (body ++ rest)) as Hk.
  pose proof (count_from_prepend sub body rest) as Hp.
  destruct sub as [|c t]; [congruence|].
  rewrite append_cons in *. cbn [count_from]. rewrite Hs.
  replace (length ((c :: t)) - 1) with (length t) by (simpl; lia).
  cbn [str_drop] in Hk. rewrite Hk. lia.
Qed.

Lemma count_from_join (sub sep : list N) (blocks : list (list N)) :
  sub <> [] ->
  Forall (fun b => exists body, b = sub ++ body) blocks ->
  length blocks <= count_from sub 0 (Str.join sep blocks).
Proof.
  intros Hne H. induction H as [|b l [body ->] Hl IH]; [simpl; lia|].
  destruct l as [|b2 l].
  - pose proof (count_from_tagged sub body [] Hne) as H.
    rewrite append_nil_r in H. simpl in *. lia.
  - rewrite join_cons2, append_assoc.
    pose proof (count_from_tagged sub body (sep ++ Str.join sep (b2 :: l)) Hne) as H1.
    pose proof (count_from_prepend sub sep (Str.join sep (b2 :: l))) as H2.
    cbn [length] in *. lia.
Qed.

Lemma format_to_bibtex_wrapped (data : paper_data) :
  exists body, format_to_bibtex data = lit "@article" ++ body.
Proof.
  unfold format_to_bibtex. cbv zeta.
  match goal with
  | |- exists _, Str.strip (nl ++ lit "@article{" ++ ?k ++ lit "," ++ ?b ++ nl ++ lit "}" ++ nl) = _ =>
      exists (lit "{" ++ (k ++ lit "," ++ b ++ nl) ++ lit "}");
      replace (nl ++ lit "@article{" ++ k ++ lit "," ++ b ++ nl ++ lit "}" ++ nl)
        with (nl ++ lit "@article{" ++ (k ++ lit "," ++ b ++ nl) ++ lit "}" ++ nl)
        by (rewrite !append_assoc; reflexivity)
  end.
  rewrite strip_article. reflexivity.
Qed.

(** The blocks of a format begin with the tag its records are counted by. *)
Lemma format_blocks_tagged (output_format : nat) (extension format_name : list N)
    (formatter : paper_data -> list N) :
  FORMAT_MAP output_format = Some (extension, formatter, format_name) ->
  exists tag_,
    tag_ <> [] /\
    (forall doc, exported_count extension doc = count_from tag_ 0 doc) /\
    forall data, exists body, formatter data = tag_ ++ body.
Proof.
  destruct output_format as [|[|[|[|n]]]]; try discriminate; intros [= <- <- <-].
  - exists (lit "TY"). split; [discriminate|]. split; [reflexivity|].
    intros data. exists (str_drop 2 (format_to_ris data)). reflexivity.
  - exists (lit "@article"). split; [discriminate|]. split; [reflexivity|].
    apply format_to_bibtex_wrapped.
  - exists (lit "%0"). split; [discriminate|]. split; [reflexivity|].
    intros data. exists (str_drop 2 (format_to_enw data)). reflexivity.
Qed.

Lemma join_empty (sep b : list N) (l : list (list N)) :
  b <> [] -> Str.join sep (b :: l) <> [].
Proof. intros Hb. apply (join_nonempty sep b); [left; reflexivity|exact Hb]. Qed.

Lemma find_entry_title_none (root : Element) :
  findall root (lit "atom:entry") = [] -> find root (lit "atom:entry/atom:title") = None.
Proof. intros H. rewrite find_entry_title, H. reflexivity. Qed.

(** X12: for each of the three formats, the export of a response reports
    that nothing was found exactly when the feed has no entry; a feed with
    entries gives a parse error or a document. *)
Theorem run_batch_export_nothing_found (root : Element) (output_format : nat) :
  1 <= output_format <= 3 ->
  (run_batch_export root output_format = Some NothingFound <->
   findall root (lit "atom:entry") = []).
Proof.
  intros Hf. unfold run_batch_export.
  destruct (FORMAT_MAP output_format) as [[[extension formatter] format_name]|] eqn:EF.
  2:{ destruct output_format as [|[|[|[|n]]]]; try discriminate; lia. }
  split.
  - destruct (parse_arxiv_xml root formatter) as [doc|e] eqn:EP; [|discriminate].
    destruct (Str.nonempty doc) eqn:En; [discriminate|]. intros _.
    unfold parse_arxiv_xml in EP. bind_inv EP. bind_inv EP. injection EP as <-.
    apply render_Ok in Hv0 as (records & HF & ->).
    destruct records as [|d records]; [inversion HF; reflexivity|].
    destruct (format_blocks_tagged _ _ _ _ EF) as (tag_ & Hne & _ & Hb).
    destruct (Hb d) as [body Hd].
    cbn [List.map] in En. rewrite nonempty_true in En; [discriminate|].
    apply join_empty. rewrite Hd. apply append_nonempty_l, Hne.
  - intros He. unfold parse_arxiv_xml.
    rewrite (find_entry_title_none root He), He. reflexivity.
Qed.

Lemma run_batch_export_nothing_found_witness :
  run_batch_export (Elem (atom (lit "feed")) [] None []) 2 = Some NothingFound.
Proof.
  apply (run_batch_export_nothing_found (Elem (atom (lit "feed")) [] None []) 2);
    [lia|reflexivity].
Defined.

(** X13: the number of records the export reports is never below the
    number of entries of the feed: each block begins with the tag that
    is counted.  (It may be above: the tag may occur in a field.) *)
Theorem run_batch_export_count (root : Element) (output_format : nat)
    (extension output_content : list N) (count : nat) :
  run_batch_export root output_format =
    Some (Exported extension output_content count) ->
  length (findall root (lit "atom:entry")) <= count.
Proof.
  unfold run_batch_export.
  destruct (FORMAT_MAP output_format) as [[[ext formatter] format_name]|] eqn:EF;
    [|discriminate].
  destruct (parse_arxiv_xml root formatter) as [doc|e] eqn:EP; [|discriminate].
  destruct (Str.nonempty doc); [|discriminate]. intros [= <- <- <-].
  unfold parse_arxiv_xml in EP. bind_inv EP. bind_inv EP. injection EP as <-.
  apply render_Ok in Hv0 as (records & HF & ->).
  rewrite (Forall2_length _ _ _ HF).
  destruct (format_blocks_tagged _ _ _ _ EF) as (tag_ & Hne & Hc & Hb).
  rewrite Hc, <- (length_map formatter).
  apply count_from_join; [exact Hne|].
  apply List.Forall_forall. intros b (d & <- & _)%List.in_map_iff. apply Hb.
Qed.

Lemma run_batch_export_count_witness :
  length (findall property_feed (lit "atom:entry")) <= 2.
Proof.
  apply (run_batch_export_count property_feed 1 (lit "ris")
           (format_to_ris
              (mkpaper_data (lit "TYPE THEORY") [] [] (lit "2310.12345v2")
                 (lit "https://arxiv.org/abs/2310.12345v2") [] [] [] [] (Some []) []))).
  vm_compute. reflexivity.
Defined.


(** ** The query handed to the catalog *)

(** X14: for every URL and every search type, building the query ends,
    and it ends with a query that is not empty or with a [ValueError], the
    one error its caller handles; no other exception comes out of it. *)
Theorem build_api_query_outcome (url_query upper : list N -> list N)
    (url : list N) (search_type : nat) :
  match build_api_query url_query upper url search_type with
  | Some (Ok api_query) => api_query <> []
  | Some (Raise e) => exists msg, e = ValueError msg
  | None => False
  end.
Proof.
  unfold build_api_query.
  destruct search_type as [|[|[|n]]]; try (eexists; reflexivity).
  - unfold parse_simple_search_url.
    destruct (default [] (query_params_of url_query url !! lit "query"))
      as [|query0 l]; [eexists; reflexivity|].
    destruct (default [] (query_params_of url_query url !! lit "searchtype"))
      as [|search_field l']; [eexists; reflexivity|].
    apply append_nonempty_r, append_nonempty_l. discriminate.
  - pose proof (parse_advanced_search_url_total url_query upper url) as [r Hr].
    rewrite Hr. unfold parse_advanced_search_url in Hr.
    destruct (advanced_loop upper _ _ 0 []) as [parts|]; [|discriminate].
    destruct (Str.nonempty (Str.join (lit " ") parts)) eqn:En; injection Hr as <-.
    + intros E. rewrite E in En. discriminate.
    + eexists. reflexivity.
Qed.

(** ** The identifier of a well-formed id text *)

Lemma span_digits_all (k : list N) :
  Str.all Str.isdigit k = true -> span_digits k = (k, []).
Proof.
  induction k as [|c k IH]; [reflexivity|].
  simpl. intros [Hc Hk]%andb_true_iff. rewrite Hc, (IH Hk). reflexivity.
Qed.

Lemma match_arxiv_id_whole (m : list N) :
  id_shape m -> match_arxiv_id m = Some m.
Proof.
  intros (a & b & Ha & Hb & [->|(k & Hk & Hkd & ->)]); unfold match_arxiv_id.
  - replace (a ++ lit "." ++ b) with (a ++ lit "." ++ b ++ []) at 1
      by (rewrite app_nil_r; reflexivity).
    rewrite match_base_complete by assumption. reflexivity.
  - rewrite match_base_complete by assumption.
    destruct k as [|d ds]; [congruence|].
    change (lit "v" ++ d :: ds) with (ch "v" :: d :: ds).
    cbv iota beta. rewrite N.eqb_refl, (span_digits_all _ Hkd).
    rewrite <- !app_assoc. reflexivity.
Qed.

(** X15: an id text made of a part without digits followed by an
    identifier of the shape [NNNN.NNNNN] or [NNNN.NNNNNvK] gives that
    identifier, whole, and the URL [https://arxiv.org/abs/] followed by
    it. *)
Theorem identifier_of_wellformed (pre m : list N) :
  Str.all (fun c => negb (Str.isdigit c)) pre = true ->
  id_shape m ->
  identifier_of (pre ++ m) = (m, lit "https://arxiv.org/abs/" ++ m).
Proof.
  intros Hpre Hm. unfold identifier_of.
  rewrite search_arxiv_id_skip by exact Hpre.
  rewrite (search_arxiv_id_head m m (match_arxiv_id_whole m Hm)). reflexivity.
Qed.

Lemma identifier_of_wellformed_witness :
  identifier_of (lit "http://arxiv.org/abs/0704.00001v12") =
  (lit "0704.00001v12", lit "https://arxiv.org/abs/0704.00001v12").
Proof.
  apply (identifier_of_wellformed (lit "http://arxiv.org/abs/") (lit "0704.00001v12"));
    [reflexivity|].
  exists (lit "0704"), (lit "00001"). repeat split.
  right. exists (lit "12"). repeat split. discriminate.
Defined.

(** An identifier of the older form, [archive/NNNNNNN], is not found. *)
Example identifier_of_old_style :
  identifier_of (lit "http://arxiv.org/abs/hep-th/9901001v1") =
  (lit "unknown", lit "https://arxiv.org/abs/unknown").
Proof. vm_compute. reflexivity. Qed.

(** The count of a document may be above the number of its records. *)
Example run_batch_export_overcount :
  length (findall property_feed (lit "atom:entry")) = 1 /\
  exists doc, run_batch_export property_feed 1 = Some (Exported (lit "ris") doc 2).
Proof. split; [reflexivity|]. eexists. vm_compute. reflexivity. Qed.

